(** * playwright-template: the retry / poll helpers and the custom reporter

    A shallow embedding of

    - [TestHelpers.retryOperation]   (src/utils/test.helpers.ts),
    - [APIHelpers.waitForAPIResponse] (src/utils/api.helpers.ts),
    - [CustomReporter]                (src/utils/reporter.ts),

    followed by the properties of the specification that concern them. *)

From Stdlib Require Import ZArith List String Ascii Bool Lia Arith.
From Stdlib Require Import Permutation DecimalString Floats Uint63.
Import ListNotations.

Local Open Scope string_scope.
Local Open Scope Z_scope.

(** ** Asynchronous operations

    An [async] function either fulfils with a value or rejects with the
    value that was thrown.  Both helpers drive a caller-supplied operation
    [() => Promise<T>]; it acts on some world [W] (a server, a page, a
    counter) and the world moves on while a [setTimeout] timer runs. *)

Inductive completion (X A : Type) : Type :=
| Normal (a : A)
| Abrupt (x : X).
Arguments Normal {X A} a.
Arguments Abrupt {X A} x.

(** What the helpers can throw: the never-assigned [lastError] (undefined),
    a value the operation itself threw, or a fresh [new Error(message)]. *)
Inductive Thrown (E : Type) : Type :=
| Undefined
| Raised (e : E)
| NewError (message : string).
Arguments Undefined {E}.
Arguments Raised {E} e.
Arguments NewError {E} message.

Inductive Event : Type :=
| Invoke
| Sleep (ms : Z).

Definition is_invoke (e : Event) : bool :=
  match e with Invoke => true | Sleep _ => false end.

(** Number of times the operation was invoked along a trace. *)
Definition invocations (tr : list Event) : nat :=
  List.length (filter is_invoke tr).

(** State and exceptions: a computation runs from a state to a completion
    and the state it leaves behind (what was done before a throw stays
    done). *)
Definition SE (S X A : Type) : Type := S -> completion X A * S.

Definition ret {S X A} (a : A) : SE S X A := fun s => (Normal a, s).

Definition throw {S X A} (x : X) : SE S X A := fun s => (Abrupt x, s).

Definition bind {S X A B} (c : SE S X A) (k : A -> SE S X B) : SE S X B :=
  fun s =>
    match c s with
    | (Normal a, s') => k a s'
    | (Abrupt x, s') => (Abrupt x, s')
    end.

(** [try { c } catch (error) { h error }] *)
Definition try_catch {S X A} (c : SE S X A) (h : X -> SE S X A) : SE S X A :=
  fun s =>
    match c s with
    | (Normal a, s') => (Normal a, s')
    | (Abrupt x, s') => h x s'
    end.

Declare Scope se_scope.
Delimit Scope se_scope with se.
Notation "x <- c ;; k" := (bind c (fun x => k))
  (at level 61, c at next level, right associativity) : se_scope.
Notation "c ;; k" := (bind c (fun _ => k))
  (at level 61, right associativity) : se_scope.
Local Open Scope se_scope.

Section Async.
Context {W E T : Type}.
Local Open Scope list_scope.

(** [elapse ms w]: the world after a timer of [ms] milliseconds. *)
Variable elapse : Z -> W -> W.

Record Machine : Type := mkMachine { world : W; trace : list Event }.

Definition Async (A : Type) : Type := SE Machine (Thrown E) A.

Definition Operation : Type := W -> completion E T * W.

(** [await operation()] *)
Definition await_call (operation : Operation) : Async T :=
  fun m =>
    let tr := trace m ++ [Invoke] in
    match operation (world m) with
    | (Normal r, w') => (Normal r, mkMachine w' tr)
    | (Abrupt e, w') => (Abrupt (Raised e), mkMachine w' tr)
    end.

(** [await new Promise((resolve) => setTimeout(resolve, delay))] *)
Definition await_timeout (delay : Z) : Async unit :=
  fun m => (Normal tt, mkMachine (elapse delay (world m)) (trace m ++ [Sleep delay])).

(** [throw lastError] where [lastError : Error | undefined]. *)
Definition throw_lastError {A} (lastError : option (Thrown E)) : Async A :=
  match lastError with
  | None => throw Undefined
  | Some x => throw x
  end.

(** *** TestHelpers.retryOperation

<<
  let lastError: Error | undefined;
  for (let i = 0; i < maxRetries; i++) {
    try {
      return await operation();
    } catch (error) {
      lastError = error as Error;
      if (i < maxRetries - 1) {
        await new Promise((resolve) => setTimeout(resolve, delay));
      }
    }
  }
  throw lastError;
>>
    The loop is unrolled on [fuel]; [i] and [lastError] are the loop's
    variables.  [Z.to_nat (maxRetries - i)] iterations are all the loop
    can make, see [retry_loop_fuel]. *)
Fixpoint retry_loop (operation : Operation) (maxRetries delay : Z)
         (fuel : nat) (i : Z) (lastError : option (Thrown E)) : Async T :=
  if i <? maxRetries then
    match fuel with
    | O => throw_lastError lastError
    | S fuel' =>
        try_catch (await_call operation)
          (fun error =>
             (if i <? maxRetries - 1 then await_timeout delay else ret tt) ;;
             retry_loop operation maxRetries delay fuel' (i + 1) (Some error))
    end
  else throw_lastError lastError.

Definition retryOperation (operation : Operation) (maxRetries delay : Z) : Async T :=
  retry_loop operation maxRetries delay (Z.to_nat maxRetries) 0 None.

(** *** APIHelpers.waitForAPIResponse

<<
  for (let i = 0; i < maxRetries; i++) {
    const response = await operation();
    if (condition(response)) {
      return response;
    }
    if (i < maxRetries - 1) {
      await new Promise((resolve) => setTimeout(resolve, delay));
    }
  }
  throw new Error('API response condition not met within timeout');
>> *)
Definition condition_not_met : string :=
  "API response condition not met within timeout".

Fixpoint wait_loop (operation : Operation) (condition : T -> bool)
         (maxRetries delay : Z) (fuel : nat) (i : Z) : Async T :=
  if i <? maxRetries then
    match fuel with
    | O => throw (NewError condition_not_met)
    | S fuel' =>
        response <- await_call operation ;;
        if condition response then ret response
        else
          (if i <? maxRetries - 1 then await_timeout delay else ret tt) ;;
          wait_loop operation condition maxRetries delay fuel' (i + 1)
    end
  else throw (NewError condition_not_met).

Definition waitForAPIResponse (operation : Operation) (condition : T -> bool)
           (maxRetries delay : Z) : Async T :=
  wait_loop operation condition maxRetries delay (Z.to_nat maxRetries) 0.

(** *** The schedule of attempts

    The world in which attempt [j] (counted from 0) takes place when every
    earlier attempt was followed by the wait: both loops wait [delay]
    between two attempts. *)
Definition next_attempt (operation : Operation) (delay : Z) (w : W) : W :=
  elapse delay (snd (operation w)).

Definition world_at (operation : Operation) (delay : Z) (j : nat) (w : W) : W :=
  Nat.iter j (next_attempt operation delay) w.

(** Outcome of attempt [j] of the schedule started in [w]. *)
Definition attempt (operation : Operation) (delay : Z) (j : nat) (w : W)
  : completion E T :=
  fst (operation (world_at operation delay j w)).

(** World right after attempt [j]. *)
Definition world_after (operation : Operation) (delay : Z) (j : nat) (w : W) : W :=
  snd (operation (world_at operation delay j w)).

(** The trace of [n] attempts that were each followed by a wait. *)
Fixpoint rounds (delay : Z) (n : nat) : list Event :=
  match n with
  | O => []
  | S n' => Invoke :: Sleep delay :: rounds delay n'
  end.

(** "The operation throws on each of the first [k] attempts." *)
Definition throws_until (operation : Operation) (delay : Z) (k : nat) (w : W) : Prop :=
  forall j, (j < k)%nat -> exists e, attempt operation delay j w = Abrupt e.

(** "The condition fails on the results of the first [k] attempts." *)
Definition unmet_until (operation : Operation) (condition : T -> bool)
           (delay : Z) (k : nat) (w : W) : Prop :=
  forall j, (j < k)%nat ->
    exists r, attempt operation delay j w = Normal r /\ condition r = false.

(** The machine after [n] attempts that were each followed by the wait,
    and one more attempt. *)
Definition after_attempts (operation : Operation) (delay : Z) (n : nat)
           (m : Machine) : Machine :=
  mkMachine (world_after operation delay n (world m))
            (trace m ++ rounds delay n ++ [Invoke]).

End Async.

Arguments Machine : clear implicits.
Arguments mkMachine {W} world trace.

(** ** JavaScript numbers and their rendering

    Numbers are IEEE 754 binary64 values, here the kernel's primitive floats,
    so that [0 / 0], the rounding of [count / total * 100] and the digits
    [toFixed] prints are those of the running program. *)
Module JsNumber.

(** An integer as a Number: exact below 2^53 (array lengths, and the
    difference of two clock readings of one run), rounded to the nearest
    Number above. *)
Definition of_Z (z : Z) : float :=
  if z <? 0 then PrimFloat.opp (PrimFloat.of_uint63 (Uint63.of_Z (- z)))
  else PrimFloat.of_uint63 (Uint63.of_Z z).

Definition of_nat (n : nat) : float := of_Z (Z.of_nat n).

(** Template-literal rendering of an integer-valued Number. *)
Definition string_of_Z (z : Z) : string := NilZero.string_of_int (Z.to_int z).

Definition string_of_nat (n : nat) : string := string_of_Z (Z.of_nat n).

Fixpoint zeros (n : nat) : string :=
  match n with
  | O => ""
  | S n' => String "0" (zeros n')
  end.

(** Steps 8-10 of Number.prototype.toFixed: the digits of [n] with a
    decimal point before the last [f] of them, left-padded with zeros. *)
Definition place_point (n : Z) (f : nat) : string :=
  let m := string_of_Z n in
  if (f =? 0)%nat then m
  else
    let k := String.length m in
    let m := if (k <=? f)%nat then zeros (f + 1 - k) ++ m else m in
    let k := String.length m in
    substring 0 (k - f) m ++ "." ++ substring (k - f) f m.

(** [x.toFixed(f)] for [0 <= f <= 100].  A finite [x] is [mant * 2^e];
    [n] is the integer nearest to [x * 10^f], the larger one on a tie.
    Values of magnitude 10^21 and above print through Number::toString in
    JavaScript; the reporter never formats one (percentages lie in
    [0, 100], run durations are differences of two clock readings), and
    they are rendered here by the same digit rule. *)
Definition toFixed (x : float) (f : nat) : string :=
  match Prim2SF x with
  | S754_nan => "NaN"
  | S754_infinity false => "Infinity"
  | S754_infinity true => "-Infinity"
  | S754_zero _ => place_point 0 f
  | S754_finite s mant e =>
      let num := Z.pos mant * 10 ^ Z.of_nat f in
      let n := if 0 <=? e then num * 2 ^ e
               else (2 * num + 2 ^ (- e)) / (2 * 2 ^ (- e)) in
      (if s then "-" else "") ++ place_point n f
  end.

End JsNumber.

(** ** Strings *)

Definition nl : string := String "010" EmptyString.

(** [s.repeat(n)] *)
Fixpoint repeat_string (s : string) (n : nat) : string :=
  match n with
  | O => ""
  | S n' => s ++ repeat_string s n'
  end.

(** [a || b] on strings that may be undefined: the empty string is falsy. *)
Definition or_else (a : option string) (b : string) : string :=
  match a with
  | Some (String c s) => String c s
  | Some EmptyString => b
  | None => b
  end.

(** Template-literal rendering of a string that may be undefined. *)
Definition show_optional (a : option string) : string :=
  match a with
  | Some s => s
  | None => "undefined"
  end.

(** Property lookup [{ k1: v1, ... }[key]] in an object literal. *)
Fixpoint lookup (key : string) (obj : list (string * string)) : option string :=
  match obj with
  | [] => None
  | (k, v) :: rest => if String.eqb k key then Some v else lookup key rest
  end.

(** [piece] is part of the text [s]. *)
Definition occurs_in (piece s : string) : Prop :=
  exists pre post, s = pre ++ piece ++ post.

(** ** What the test runner hands to the reporter *)

Inductive TestStatus : Type := Passed | Failed | TimedOut | Skipped | Interrupted.

(** The string a status is in the running program. *)
Definition status_name (s : TestStatus) : string :=
  match s with
  | Passed => "passed"
  | Failed => "failed"
  | TimedOut => "timedOut"
  | Skipped => "skipped"
  | Interrupted => "interrupted"
  end.

(** [r.status === 'passed'] and the like. *)
Definition status_is (s : TestStatus) (name : string) : bool :=
  String.eqb (status_name s) name.

Inductive RunStatus : Type := RunPassed | RunFailed | RunTimedout | RunInterrupted.

Definition run_status_name (s : RunStatus) : string :=
  match s with
  | RunPassed => "passed"
  | RunFailed => "failed"
  | RunTimedout => "timedout"
  | RunInterrupted => "interrupted"
  end.

Record Attachment : Type :=
  { name : string; path : option string; contentType : string }.

Record Annotation : Type :=
  { type : string; description : option string }.

Record TestError : Type :=
  { message : option string; stack : option string }.

Record Location : Type :=
  { file : string; line : nat; column : nat }.

Module TestCase.
Record t : Type :=
  { title : string;
    titlePath : list string;
    location : Location;
    tags : list string;
    annotations : list Annotation }.
End TestCase.

Module TestResult.
Record t : Type :=
  { status : TestStatus;
    duration : nat;
    retry : nat;
    error : option TestError;
    stdout : list string;
    stderr : list string;
    attachments : list Attachment }.
End TestResult.

Module TestStep.
Record t : Type :=
  { title : string;
    category : string;
    error : option TestError }.
End TestStep.

(** The object [onTestEnd] pushes onto [this.results]. *)
Module Recorded.
Record t : Type :=
  { title : string;
    fullTitle : string;
    file : string;
    line : nat;
    column : nat;
    status : TestStatus;
    duration : nat;
    retry : nat;
    error : option string;
    stack : option string;
    stdout : list string;
    stderr : list string;
    attachments : list Attachment;
    tags : list string;
    annotations : list Annotation }.
End Recorded.

(** The [summary] object of [onEnd]. *)
Module Summary.
Record t : Type :=
  { startTime : string;
    endTime : string;
    duration : Z;
    status : option RunStatus;
    totalTests : nat;
    passed : nat;
    failed : nat;
    skipped : nat;
    flaky : nat;
    results : list Recorded.t }.
End Summary.

(** ** Dates

    A Date is its time value, milliseconds since the epoch (UTC). *)
Module JsDate.

Definition msPerDay : Z := 86400000.

(** Year, month and day of a day number (days since 1970-01-01) in the
    proleptic Gregorian calendar. *)
Definition civil (days : Z) : Z * Z * Z :=
  let z := days + 719468 in
  let era := z / 146097 in
  let doe := z - era * 146097 in
  let yoe := (doe - doe / 1460 + doe / 36524 - doe / 146096) / 365 in
  let doy := doe - (365 * yoe + yoe / 4 - yoe / 100) in
  let mp := (5 * doy + 2) / 153 in
  let d := doy - (153 * mp + 2) / 5 + 1 in
  let m := if mp <? 10 then mp + 3 else mp - 9 in
  let y := yoe + era * 400 + (if m <=? 2 then 1 else 0) in
  (y, m, d).

(** [n] in decimal, left-padded with zeros to [width] digits. *)
Definition pad (width : nat) (n : Z) : string :=
  let digits := JsNumber.string_of_Z n in
  JsNumber.zeros (width - String.length digits) ++ digits.

(** [d.toISOString()] for a valid Date. *)
Definition toISOString (t : Z) : string :=
  let '(y, m, d) := civil (t / msPerDay) in
  let ms := t mod msPerDay in
  let year :=
    if (0 <=? y) && (y <=? 9999) then pad 4 y
    else (if y <? 0 then "-" else "+") ++ pad 6 (Z.abs y) in
  year ++ "-" ++ pad 2 m ++ "-" ++ pad 2 d ++ "T"
  ++ pad 2 (ms / 3600000) ++ ":" ++ pad 2 (ms / 60000 mod 60) ++ ":"
  ++ pad 2 (ms / 1000 mod 60) ++ "." ++ pad 3 (ms mod 1000) ++ "Z".

End JsDate.

(** ** The host: clock, locale, paths and the file system

    [H] is the state of the machine the reporter runs on.  A failed
    [fs.promises] call rejects with the system's error code.  A file is
    written either with the text [JSON.stringify(summary, null, 2)], kept
    as the document it serialises, or with plain text. *)
Definition IOError : Type := string.

Inductive FileData : Type :=
| JsonDocument (summary : Summary.t)
| Text (content : string).

Record Host (H : Type) : Type :=
  { (** [new Date()] *)
    Date_now : H -> Z * H;
    (** [new Date(iso).toLocaleString()], in the host's locale and zone *)
    toLocaleString : string -> string;
    (** [path.join(...)] and [path.dirname(p)] of the host's platform *)
    path_join : list string -> string;
    path_dirname : string -> string;
    (** [fs.promises.mkdir(p, { recursive: true })] *)
    fs_mkdir : string -> H -> completion IOError unit * H;
    (** [fs.promises.writeFile(p, data)] *)
    fs_writeFile : string -> FileData -> H -> completion IOError unit * H }.
Arguments Date_now {H} h.
Arguments toLocaleString {H} h.
Arguments path_join {H} h.
Arguments path_dirname {H} h.
Arguments fs_mkdir {H} h.
Arguments fs_writeFile {H} h.

Inductive ConsoleLine : Type :=
| Log (text : string)
| Err (text : string).

(** What a reporter callback can throw: a rejected file-system promise, or
    the TypeError of reading a property of a field [onBegin] never set. *)
Inductive ReporterThrown : Type :=
| Rejected (e : IOError)
| TypeError.

Record FullConfig : Type := { rootDir : string }.

(** ** CustomReporter *)
Module CustomReporter.
Section WithHost.
Context {H : Type}.
Variable host : Host H.

(** The instance fields; [startTime] and [config] are declared with [!]
    and stay undefined until [onBegin]. *)
Record t : Type :=
  { results : list Recorded.t;
    startTime : option Z;
    config : option FullConfig }.

(** [new CustomReporter()] *)
Definition create : t :=
  {| results := []; startTime := None; config := None |}.

Record State : Type :=
  { this : t; machine : H; console : list ConsoleLine }.

Definition Run (A : Type) : Type := SE State ReporterThrown A.

Definition console_log (text : string) : Run unit :=
  fun s => (Normal tt,
            {| this := this s; machine := machine s;
               console := (console s ++ [Log text])%list |}).

Definition console_error (text : string) : Run unit :=
  fun s => (Normal tt,
            {| this := this s; machine := machine s;
               console := (console s ++ [Err text])%list |}).

Definition get_this : Run t := fun s => (Normal (this s), s).

Definition set_this (r : t) : Run unit :=
  fun s => (Normal tt,
            {| this := r; machine := machine s; console := console s |}).

(** [new Date()] *)
Definition new_Date : Run Z :=
  fun s =>
    let (d, h) := Date_now host (machine s) in
    (Normal d, {| this := this s; machine := h; console := console s |}).

(** [await] of a file-system promise. *)
Definition await_fs (op : H -> completion IOError unit * H) : Run unit :=
  fun s =>
    match op (machine s) with
    | (Normal u, h) =>
        (Normal u, {| this := this s; machine := h; console := console s |})
    | (Abrupt e, h) =>
        (Abrupt (Rejected e),
         {| this := this s; machine := h; console := console s |})
    end.

(** Reading a property of a field that may still be undefined. *)
Definition defined {A} (field : option A) : Run A :=
  match field with
  | Some a => ret a
  | None => throw TypeError
  end.

(** [for each x of l: body x] *)
Fixpoint forEach {A} (l : list A) (body : A -> Run unit) : Run unit :=
  match l with
  | [] => ret tt
  | x :: rest => body x ;; forEach rest body
  end.

(** [onBegin(config, suite)]; [allTests] is [suite.allTests()]. *)
Definition onBegin (cfg : FullConfig) (allTests : list TestCase.t) : Run unit :=
  self <- get_this ;;
  set_this {| results := results self; startTime := startTime self;
              config := Some cfg |} ;;
  now <- new_Date ;;
  self <- get_this ;;
  set_this {| results := results self; startTime := Some now;
              config := config self |} ;;
  console_log ("Starting test run with "
               ++ JsNumber.string_of_nat (List.length allTests) ++ " tests").

Definition onTestBegin (test : TestCase.t) (result : TestResult.t) : Run unit :=
  console_log ("Running test: " ++ TestCase.title test).

Definition onStepBegin (test : TestCase.t) (result : TestResult.t)
           (step : TestStep.t) : Run unit :=
  if String.eqb (TestStep.category step) "test.step"
  then console_log ("  Step: " ++ TestStep.title step)
  else ret tt.

Definition onStepEnd (test : TestCase.t) (result : TestResult.t)
           (step : TestStep.t) : Run unit :=
  match TestStep.error step with
  | Some e =>
      console_error ("  Step failed: " ++ TestStep.title step) ;;
      console_error ("  Error: " ++ show_optional (message e))
  | None => ret tt
  end.

(** The glyph table of [onTestEnd]. *)
Definition console_icons : list (string * string) :=
  [ ("passed", "✅");
    ("failed", "❌");
    ("timedOut", "⏱️");
    ("skipped", "⏭️");
    ("interrupted", "🛑") ].

(** The glyph table of [generateMarkdownSummary]. *)
Definition markdown_icons : list (string * string) :=
  [ ("passed", "✅");
    ("failed", "❌");
    ("timedOut", "⏱️");
    ("skipped", "⏭️") ].

Definition unknown_icon : string := "❓".

(** [{ ... }[status] || '❓'] *)
Definition statusIcon (table : list (string * string)) (status : TestStatus) : string :=
  or_else (lookup (status_name status) table) unknown_icon.

(** The [testResult] object literal of [onTestEnd]. *)
Definition testResult (test : TestCase.t) (result : TestResult.t) : Recorded.t :=
  {| Recorded.title := TestCase.title test;
     Recorded.fullTitle := String.concat " > " (TestCase.titlePath test);
     Recorded.file := file (TestCase.location test);
     Recorded.line := line (TestCase.location test);
     Recorded.column := column (TestCase.location test);
     Recorded.status := TestResult.status result;
     Recorded.duration := TestResult.duration result;
     Recorded.retry := TestResult.retry result;
     Recorded.error :=
       match TestResult.error result with
       | Some e => message e
       | None => None
       end;
     Recorded.stack :=
       match TestResult.error result with
       | Some e => stack e
       | None => None
       end;
     Recorded.stdout := TestResult.stdout result;
     Recorded.stderr := TestResult.stderr result;
     Recorded.attachments :=
       map (fun a => {| name := name a; path := path a;
                        contentType := contentType a |})
           (TestResult.attachments result);
     Recorded.tags := TestCase.tags test;
     Recorded.annotations := TestCase.annotations test |}.

(** The progress line [onTestEnd] prints. *)
Definition progress_line (test : TestCase.t) (result : TestResult.t) : string :=
  statusIcon console_icons (TestResult.status result) ++ " "
  ++ TestCase.title test ++ " ("
  ++ JsNumber.string_of_nat (TestResult.duration result) ++ "ms)".

Definition onTestEnd (test : TestCase.t) (result : TestResult.t) : Run unit :=
  self <- get_this ;;
  set_this {| results := (results self ++ [testResult test result])%list;
              startTime := startTime self; config := config self |} ;;
  console_log (progress_line test result) ;;
  match TestResult.error result with
  | Some e => console_error ("   " ++ show_optional (message e))
  | None => ret tt
  end.

(** The derived counts of [onEnd]. *)
Definition count_status (name : string) (rs : list Recorded.t) : nat :=
  List.length (filter (fun r => status_is (Recorded.status r) name) rs).

(** [r => r.retry > 0 && r.status === 'passed'] *)
Definition is_flaky (r : Recorded.t) : bool :=
  (0 <? Recorded.retry r)%nat && status_is (Recorded.status r) "passed".

Definition flaky_count (rs : list Recorded.t) : nat :=
  List.length (filter is_flaky rs).

(** [((count / totalTests) * 100).toFixed(1)] *)
Definition percentage (count totalTests : nat) : string :=
  JsNumber.toFixed
    (PrimFloat.mul
       (PrimFloat.div (JsNumber.of_nat count) (JsNumber.of_nat totalTests))
       (JsNumber.of_nat 100))
    1.

(** [(duration / 1000).toFixed(2)] *)
Definition seconds (duration : Z) : string :=
  JsNumber.toFixed (PrimFloat.div (JsNumber.of_Z duration) (JsNumber.of_Z 1000)) 2.

Definition summary_row (label : string) (count totalTests : nat) : string :=
  "| " ++ label ++ " | " ++ JsNumber.string_of_nat count ++ " | "
  ++ percentage count totalTests ++ "% |" ++ nl.

(** One entry of the "Failed Tests" section. *)
Definition failed_entry (r : Recorded.t) : string :=
  let md := "### ❌ " ++ Recorded.title r ++ nl in
  let md := md ++ "- **File**: " ++ Recorded.file r ++ ":"
               ++ JsNumber.string_of_nat (Recorded.line r) ++ nl in
  let md := md ++ "- **Error**: " ++ show_optional (Recorded.error r) ++ nl in
  let md :=
    if (0 <? List.length (Recorded.tags r))%nat
    then md ++ "- **Tags**: " ++ String.concat ", " (Recorded.tags r) ++ nl
    else md in
  md ++ nl.

(** One row of the full-results table. *)
Definition details_row (r : Recorded.t) : string :=
  let statusIcon := statusIcon markdown_icons (Recorded.status r) in
  "| " ++ Recorded.title r ++ " | " ++ statusIcon ++ " | "
  ++ JsNumber.string_of_nat (Recorded.duration r) ++ "ms | "
  ++ or_else (Some (String.concat ", " (Recorded.tags r))) "-" ++ " |" ++ nl.

(** [list.forEach(r => { md += piece(r) })] *)
Definition append_each {A} (piece : A -> string) (l : list A) (md : string) : string :=
  fold_left (fun md r => md ++ piece r) l md.

(** [generateMarkdownSummary(summary)]; it reads [this.results]. *)
Definition generateMarkdownSummary (self : t) (summary : Summary.t) : string :=
  let md := "# Test Run Report" ++ nl ++ nl in
  let md := md ++ "**Date**: "
               ++ toLocaleString host (Summary.startTime summary) ++ nl in
  let md := md ++ "**Duration**: " ++ seconds (Summary.duration summary)
               ++ "s" ++ nl in
  let md := md ++ "**Status**: "
               ++ or_else (option_map run_status_name (Summary.status summary))
                          "completed"
               ++ nl ++ nl in
  let md := md ++ "## Summary" ++ nl ++ nl in
  let md := md ++ "| Status | Count | Percentage |" ++ nl in
  let md := md ++ "|--------|-------|------------|" ++ nl in
  let md := md ++ summary_row "✅ Passed" (Summary.passed summary)
                             (Summary.totalTests summary) in
  let md := md ++ summary_row "❌ Failed" (Summary.failed summary)
                             (Summary.totalTests summary) in
  let md := md ++ summary_row "⏭️ Skipped" (Summary.skipped summary)
                             (Summary.totalTests summary) in
  let md := md ++ summary_row "🔄 Flaky" (Summary.flaky summary)
                             (Summary.totalTests summary) in
  let md :=
    if (0 <? Summary.failed summary)%nat
    then
      let md := md ++ nl ++ "## Failed Tests" ++ nl ++ nl in
      append_each failed_entry
        (filter (fun r => status_is (Recorded.status r) "failed") (results self))
        md
    else md in
  let md := md ++ nl ++ "## Test Details" ++ nl ++ nl in
  let md := md ++ "<details>" ++ nl
               ++ "<summary>Click to expand full test results</summary>"
               ++ nl ++ nl in
  let md := md ++ "| Test | Status | Duration | Tags |" ++ nl in
  let md := md ++ "|------|--------|----------|------|" ++ nl in
  let md := append_each details_row (results self) md in
  let md := md ++ nl ++ "</details>" ++ nl in
  md.

(** The [summary] object literal of [onEnd]. *)
Definition make_summary (self : t) (start endTime : Z) (status : option RunStatus)
  : Summary.t :=
  {| Summary.startTime := JsDate.toISOString start;
     Summary.endTime := JsDate.toISOString endTime;
     Summary.duration := endTime - start;
     Summary.status := status;
     Summary.totalTests := List.length (results self);
     Summary.passed := count_status "passed" (results self);
     Summary.failed := count_status "failed" (results self);
     Summary.skipped := count_status "skipped" (results self);
     Summary.flaky := flaky_count (results self);
     Summary.results := results self |}.

Definition border : string := repeat_string "=" 50.

(** The bordered block [onEnd] prints after the two files are written. *)
Definition console_summary (summary : Summary.t) : Run unit :=
  console_log (nl ++ border) ;;
  console_log "Test Run Summary" ;;
  console_log border ;;
  console_log ("Total Tests: " ++ JsNumber.string_of_nat (Summary.totalTests summary)) ;;
  console_log ("✅ Passed: " ++ JsNumber.string_of_nat (Summary.passed summary)) ;;
  console_log ("❌ Failed: " ++ JsNumber.string_of_nat (Summary.failed summary)) ;;
  console_log ("⏭️  Skipped: " ++ JsNumber.string_of_nat (Summary.skipped summary)) ;;
  console_log ("🔄 Flaky: " ++ JsNumber.string_of_nat (Summary.flaky summary)) ;;
  console_log ("⏱️  Duration: " ++ seconds (Summary.duration summary) ++ "s") ;;
  console_log border.

Definition console_failures (self : t) : Run unit :=
  console_log (nl ++ "Failed Tests:") ;;
  forEach (filter (fun r => status_is (Recorded.status r) "failed") (results self))
    (fun r =>
       console_log ("  ❌ " ++ Recorded.fullTitle r) ;;
       console_log ("     " ++ show_optional (Recorded.error r)) ;;
       console_log ("     at " ++ Recorded.file r ++ ":"
                    ++ JsNumber.string_of_nat (Recorded.line r))).

(** [async onEnd(result)]; [status] is [result.status]. *)
Definition onEnd (status : option RunStatus) : Run unit :=
  endTime <- new_Date ;;
  self <- get_this ;;
  start <- defined (startTime self) ;;
  let summary := make_summary self start endTime status in
  (* Write detailed JSON report *)
  cfg <- defined (config self) ;;
  let reportPath := path_join host [rootDir cfg; "reports"; "custom-report.json"] in
  await_fs (fs_mkdir host (path_dirname host reportPath)) ;;
  await_fs (fs_writeFile host reportPath (JsonDocument summary)) ;;
  (* Write summary markdown *)
  let summaryPath := path_join host [rootDir cfg; "reports"; "summary.md"] in
  let summaryMd := generateMarkdownSummary self summary in
  await_fs (fs_writeFile host summaryPath (Text summaryMd)) ;;
  (* Console summary *)
  console_summary summary ;;
  if (0 <? Summary.failed summary)%nat
  then console_failures self
  else ret tt.

End WithHost.

Arguments State : clear implicits.
Arguments Run : clear implicits.

End CustomReporter.

(** ** The specification's reading of "flaky"

    The specification counts groups: outcomes are grouped by their title
    path, and a group is flaky when its largest retry index is above 0 and
    the outcome at that index passed.  The recorded object keeps the title
    path as [fullTitle], which is the grouping key here. *)
Module FlakySpec.

Definition group (key : string) (rs : list Recorded.t) : list Recorded.t :=
  filter (fun r => String.eqb (Recorded.fullTitle r) key) rs.

Definition keys (rs : list Recorded.t) : list string :=
  nodup string_dec (map Recorded.fullTitle rs).

Definition max_retry (g : list Recorded.t) : nat :=
  fold_right Nat.max 0%nat (map Recorded.retry g).

Definition passed_at (n : nat) (r : Recorded.t) : bool :=
  (Recorded.retry r =? n)%nat && status_is (Recorded.status r) "passed".

Definition group_is_flaky (g : list Recorded.t) : bool :=
  (0 <? max_retry g)%nat && existsb (passed_at (max_retry g)) g.

Definition flakyCount (rs : list Recorded.t) : nat :=
  List.length (filter (fun key => group_is_flaky (group key rs)) (keys rs)).

(** One attempt of a test is identified by its title path and its retry
    index. *)
Definition attempt_id (r : Recorded.t) : string * nat :=
  (Recorded.fullTitle r, Recorded.retry r).

(** No attempt of a test comes after an attempt of it that passed. *)
Definition passed_is_last (rs : list Recorded.t) : Prop :=
  forall r r',
    In r rs -> In r' rs ->
    Recorded.fullTitle r' = Recorded.fullTitle r ->
    Recorded.status r = Passed ->
    (Recorded.retry r' <= Recorded.retry r)%nat.

End FlakySpec.

(** ** The specification's error taxonomy, read on what the helpers throw

    The only error the helpers construct is the one of an exhausted poll;
    a value the operation threw is passed on as it is; [undefined] is no
    error object at all. *)
Inductive ErrorClass : Type :=
| ConfigurationError
| OperationFailure
| PredicateTimeout.

Definition classify {E} (x : Thrown E) : option ErrorClass :=
  match x with
  | Undefined => None
  | Raised _ => Some OperationFailure
  | NewError message =>
      if String.eqb message condition_not_met then Some PredicateTimeout else None
  end.

(** "Fails fast with a configuration-class error before invoking the
    operation". *)
Definition fails_fast_with_configuration_error {W E T}
           (run : completion (Thrown E) T * Machine W) : Prop :=
  exists x,
    fst run = Abrupt x /\
    classify x = Some ConfigurationError /\
    trace (snd run) = [].

(** ** Concrete operations and hosts used in the examples *)
Module Sample.

(** The world is the number of invocations made so far; the operation
    throws its invocation number until [okFrom] invocations were made,
    then answers with it. *)
Definition flakyOp (okFrom : nat) : nat -> completion nat nat * nat :=
  fun calls =>
    (if (calls <? okFrom)%nat then Abrupt calls else Normal calls, S calls).

(** An operation that throws on every invocation. *)
Definition failingOp : nat -> completion nat nat * nat :=
  fun calls => (Abrupt calls, S calls).

(** An operation that answers with its invocation number. *)
Definition countingOp : nat -> completion nat nat * nat :=
  fun calls => (Normal calls, S calls).

(** Answers 0, then throws, then answers again. *)
Definition throwsSecond : nat -> completion nat nat * nat :=
  fun calls =>
    (if (calls =? 1)%nat then Abrupt calls else Normal calls, S calls).

(** Timers leave this world alone. *)
Definition idle : Z -> nat -> nat := fun _ calls => calls.

Definition start : Machine nat := mkMachine 0%nat [].

(** A POSIX host in the sv-SE locale and the UTC zone.  The reports
    directory exists, so [mkdir] with [recursive: true] has nothing to do;
    the disk is either writable or rejects every write with EACCES.
    Paths are joined as they are (the segments [onEnd] passes need no
    normalisation when [rootDir] has none to do). *)
Record Disk : Type :=
  { clock : Z;
    writable : bool;
    files : list (string * FileData) }.

Fixpoint last_slash (s : string) : option nat :=
  match s with
  | EmptyString => None
  | String c rest =>
      match last_slash rest with
      | Some n => Some (S n)
      | None => if Ascii.eqb c "/" then Some 0%nat else None
      end
  end.

(** Between two readings of the clock 1250 ms go by. *)
Definition tick (h : Disk) : Disk :=
  {| clock := clock h + 1250; writable := writable h; files := files h |}.

Definition posix : Host Disk :=
  {| Date_now := fun h => (clock h, tick h);
     toLocaleString := fun iso => substring 0 10 iso ++ " " ++ substring 11 8 iso;
     path_join := String.concat "/";
     path_dirname := fun p =>
       match last_slash p with
       | Some (S n) => substring 0 (S n) p
       | Some O => "/"
       | None => "."
       end;
     fs_mkdir := fun p h => (Normal tt, h);
     fs_writeFile := fun p data h =>
       if writable h
       then (Normal tt, {| clock := clock h; writable := true;
                           files := (files h ++ [(p, data)])%list |})
       else (Abrupt "EACCES", h) |}.

Definition config : FullConfig := {| rootDir := "/work" |}.

Definition disk (w : bool) : Disk :=
  {| clock := 1700000000000; writable := w; files := [] |}.

Definition boot (w : bool) : CustomReporter.State Disk :=
  {| CustomReporter.this := CustomReporter.create;
     CustomReporter.machine := disk w;
     CustomReporter.console := [] |}.

Definition testCase (title : string) : TestCase.t :=
  {| TestCase.title := title;
     TestCase.titlePath := [""; "chromium"; "login.spec.ts"; title];
     TestCase.location := {| file := "/work/tests/login.spec.ts"; line := 7; column := 3 |};
     TestCase.tags := [];
     TestCase.annotations := [] |}.

Definition testResult (status : TestStatus) (retry : nat) : TestResult.t :=
  {| TestResult.status := status;
     TestResult.duration := 12;
     TestResult.retry := retry;
     TestResult.error := None;
     TestResult.stdout := [];
     TestResult.stderr := [];
     TestResult.attachments := [] |}.

(** A recorded outcome as [onTestEnd] stores it. *)
Definition outcome (title : string) (retry : nat) (status : TestStatus) : Recorded.t :=
  CustomReporter.testResult (testCase title) (testResult status retry).

(** A run of one passing test, up to the end of the run. *)
Definition beforeEnd (w : bool) : CustomReporter.State Disk :=
  snd ((CustomReporter.onBegin posix config [testCase "logs in"] ;;
        CustomReporter.onTestEnd (testCase "logs in") (testResult Passed 0))
         (boot w)).

(** The whole run: [onBegin], one [onTestEnd], [onEnd]. *)
Definition session : CustomReporter.Run Disk unit :=
  CustomReporter.onBegin posix config [testCase "logs in"] ;;
  CustomReporter.onTestEnd (testCase "logs in") (testResult Passed 0) ;;
  CustomReporter.onEnd posix (Some RunPassed).

(** A run in which no test ended. *)
Definition emptySession : CustomReporter.Run Disk unit :=
  CustomReporter.onBegin posix config [] ;;
  CustomReporter.onEnd posix (Some RunPassed).

End Sample.

(** ** setupAllureEnvironment

    The helper beside the reporter that writes
    [environment.properties] for Allure.  It reads the process (platform,
    version, environment variables), the version of the test framework and
    the clock, and uses the synchronous file-system calls inside a
    [try]/[catch]. *)
Module Allure.

(** [process.platform], [process.version], [process.env[name]] and
    [require('@playwright/test/package.json').version] (the package is
    taken to be installed: the [require] is outside the [try]) *)
Record Process : Type :=
  { platform : string;
    version : string;
    env : string -> option string;
    frameworkVersion : string }.

(** [config.use?.baseURL]: [use] and [baseURL] may each be missing. *)
Record UseOptions : Type := { baseURL : option string }.
Record Config : Type := { use : option UseOptions }.

Record SyncHost (H : Type) : Type :=
  { (** [new Date()] *)
    now : H -> Z * H;
    (** [path.join(a, b)] *)
    join : list string -> string;
    (** [fs.mkdirSync(p, { recursive: true })] *)
    mkdirSync : string -> H -> completion IOError unit * H;
    (** [fs.writeFileSync(p, data)] *)
    writeFileSync : string -> string -> H -> completion IOError unit * H;
    (** how [console.error] prints an error object passed after the text *)
    inspect : IOError -> string }.
Arguments now {H} s.
Arguments join {H} s.
Arguments mkdirSync {H} s.
Arguments writeFileSync {H} s.
Arguments inspect {H} s.

Record State (H : Type) : Type :=
  { machine : H; console : list ConsoleLine }.
Arguments machine {H} s.
Arguments console {H} s.

(** [a || b] where [b] may be undefined as well. *)
Definition or_option (a b : option string) : option string :=
  match a with
  | Some (String c s) => Some (String c s)
  | Some EmptyString => b
  | None => b
  end.

(** The [environmentInfo] object literal, as its entries in order; the
    values are as the template literal of [envContent] prints them. *)
Definition environmentInfo (process : Process) (config : Config) (timestamp : Z)
  : list (string * string) :=
  [ ("framework", "Playwright");
    ("frameworkVersion", frameworkVersion process);
    ("os", platform process);
    ("node", version process);
    ("testEnvironment", or_else (env process "TEST_ENV") "local");
    ("baseUrl",
     show_optional
       (or_option (env process "BASE_URL")
                  (match use config with
                   | Some u => baseURL u
                   | None => None
                   end)));
    ("timestamp", JsDate.toISOString timestamp) ].

(** [Object.entries(environmentInfo).map(([key, value]) => `${key}=${value}`).join('\n')] *)
Definition envContent (info : list (string * string)) : string :=
  String.concat nl (map (fun entry => fst entry ++ "=" ++ snd entry) info).

Definition allureResultsPath (process : Process) : string :=
  or_else (env process "ALLURE_RESULTS_DIR") "allure-results".

Section WithHost.
Context {H : Type}.
Variable host : SyncHost H.

(** [setupAllureEnvironment(config)] *)
Definition setupAllureEnvironment (process : Process) (config : Config)
  : SE (State H) IOError unit :=
  fun s =>
    let (timestamp, h0) := now host (machine s) in
    let info := environmentInfo process config timestamp in
    let dir := allureResultsPath process in
    let envPath := join host [dir; "environment.properties"] in
    let content := envContent info in
    (* try { mkdirSync; writeFileSync } catch (error) { console.error(...) } *)
    try_catch
      (fun s =>
         match mkdirSync host dir (machine s) with
         | (Abrupt e, h1) => (Abrupt e, {| machine := h1; console := console s |})
         | (Normal _, h1) =>
             match writeFileSync host envPath content h1 with
             | (Abrupt e, h2) => (Abrupt e, {| machine := h2; console := console s |})
             | (Normal _, h2) => (Normal tt, {| machine := h2; console := console s |})
             end
         end)
      (fun error s =>
         (Normal tt,
          {| machine := machine s;
             console :=
               (console s
                  ++ [Err ("Failed to write Allure environment info: "
                           ++ inspect host error)])%list |}))
      {| machine := h0; console := console s |}.

End WithHost.

End Allure.

(** ** Objects used as string maps

    A [Record<string, string>] is its own properties in insertion order,
    each key once.  [lookup] above reads an own property. *)
Definition StringMap : Type := list (string * string).

(** [CreateDataProperty(obj, k, v)]: a key that is there keeps its place. *)
Fixpoint set_property (k v : string) (obj : StringMap) : StringMap :=
  match obj with
  | [] => [(k, v)]
  | (k', v') :: rest =>
      if String.eqb k' k then (k', v) :: rest
      else (k', v') :: set_property k v rest
  end.

(** [{ ...target, ...source }], onto the properties [target] copied so far. *)
Definition spread (target source : StringMap) : StringMap :=
  fold_left (fun obj entry => set_property (fst entry) (snd entry) obj) source target.

(** [obj[k] = v] on an object created by [{}]: the key [__proto__] reaches
    the setter of [Object.prototype], which ignores a string. *)
Definition assign (k v : string) (obj : StringMap) : StringMap :=
  if String.eqb k "__proto__" then obj else set_property k v obj.

(** ** String.prototype.split and String.prototype.trim *)

(** [s.split(sep)] for a separator of one character. *)
Fixpoint split_on (sep : ascii) (s : string) : list string :=
  match s with
  | EmptyString => [""]
  | String c rest =>
      if Ascii.eqb c sep then "" :: split_on sep rest
      else
        match split_on sep rest with
        | first :: others => String c first :: others
        | [] => [String c ""]
        end
  end.

(** White space and line terminators, as their UTF-8 bytes: TAB, LF, VT,
    FF, CR and SP; U+00A0; U+1680, U+2000 to U+200A, U+2028, U+2029,
    U+202F, U+205F, U+3000 and U+FEFF. *)
Definition white1 (a : ascii) : bool :=
  let n := nat_of_ascii a in
  ((9 <=? n) && (n <=? 13) || (n =? 32))%nat.

Definition white2 (a b : ascii) : bool :=
  ((nat_of_ascii a =? 194) && (nat_of_ascii b =? 160))%nat.

Definition white3 (a b c : ascii) : bool :=
  let x := nat_of_ascii a in
  let y := nat_of_ascii b in
  let z := nat_of_ascii c in
  ((x =? 225) && (y =? 154) && (z =? 128)
   || (x =? 226) && (y =? 128)
      && ((128 <=? z) && (z <=? 138) || (z =? 168) || (z =? 169) || (z =? 175))
   || (x =? 226) && (y =? 129) && (z =? 159)
   || (x =? 227) && (y =? 128) && (z =? 128)
   || (x =? 239) && (y =? 187) && (z =? 191))%nat.

(** [s.trimStart()] *)
Fixpoint trimStart (s : string) : string :=
  match s with
  | EmptyString => s
  | String a rest =>
      if white1 a then trimStart rest
      else
        match rest with
        | EmptyString => s
        | String b rest2 =>
            if white2 a b then trimStart rest2
            else
              match rest2 with
              | EmptyString => s
              | String c rest3 =>
                  if white3 a b c then trimStart rest3 else s
              end
        end
  end.

(** The bytes of [s] from the last to the first. *)
Fixpoint reverse_onto (s acc : string) : string :=
  match s with
  | EmptyString => acc
  | String a rest => reverse_onto rest (String a acc)
  end.

(** [trimStart] on a reversed text: the bytes of a character come last
    byte first. *)
Fixpoint trimStart_reversed (s : string) : string :=
  match s with
  | EmptyString => s
  | String a rest =>
      if white1 a then trimStart_reversed rest
      else
        match rest with
        | EmptyString => s
        | String b rest2 =>
            if white2 b a then trimStart_reversed rest2
            else
              match rest2 with
              | EmptyString => s
              | String c rest3 =>
                  if white3 c b a then trimStart_reversed rest3 else s
              end
        end
  end.

(** [s.trimEnd()] and [s.trim()] *)
Definition trimEnd (s : string) : string :=
  reverse_onto (trimStart_reversed (reverse_onto s "")) "".

Definition trim (s : string) : string := trimEnd (trimStart s).

(** ** APIHelpers *)
Module APIHelpers.

(** The headers the constructor falls back to. *)
Definition jsonHeaders : StringMap :=
  [ ("Content-Type", "application/json"); ("Accept", "application/json") ].

(** [defaultHeaders || { ... }]: an object, even an empty one, is truthy. *)
Definition constructor_defaultHeaders (defaultHeaders : option StringMap) : StringMap :=
  match defaultHeaders with
  | Some h => h
  | None => jsonHeaders
  end.

(** [mergeHeaders(headers?)]: [{ ...this.defaultHeaders, ...headers }];
    spreading [undefined] copies nothing. *)
Definition mergeHeaders (defaultHeaders : StringMap) (headers : option StringMap)
  : StringMap :=
  spread (spread [] defaultHeaders)
         (match headers with Some h => h | None => [] end).

Section Responses.
(** [E]: what reading a response can reject with; [J]: parsed JSON. *)
Context {E J : Type}.

(** An [APIResponse]: [status()], and the promises of [text()] and
    [json()]. *)
Record APIResponse : Type :=
  { status : nat;
    text : completion E string;
    json : completion E J }.

Definition unexpected_status (expectedStatus : nat) (response : APIResponse)
           (body : string) : string :=
  "Expected status " ++ JsNumber.string_of_nat expectedStatus
  ++ ", but got " ++ JsNumber.string_of_nat (status response)
  ++ ". Response: " ++ body.

(** [async verifyResponse(response, expectedStatus)] *)
Definition verifyResponse (response : APIResponse) (expectedStatus : nat)
  : completion (Thrown E) unit :=
  if negb (status response =? expectedStatus)%nat then
    match text response with
    | Normal body => Abrupt (NewError (unexpected_status expectedStatus response body))
    | Abrupt e => Abrupt (Raised e)
    end
  else Normal tt.

(** [async getResponseData<T>(response)] *)
Definition getResponseData (response : APIResponse) : completion (Thrown E) J :=
  match verifyResponse response 200 with
  | Normal _ =>
      match json response with
      | Normal data => Normal data
      | Abrupt e => Abrupt (Raised e)
      end
  | Abrupt x => Abrupt x
  end.

End Responses.

(** The value of [response.headers()['set-cookie']] when it is defined. *)
Inductive HeaderValue : Type :=
| Single (value : string)
| Multiple (values : list string).

(** [value.trim()] on an [undefined] value. *)
Inductive CookieError : Type := TrimOfUndefined.

(** The element at index [n] of a destructured array, if any. *)
Definition element (n : nat) (parts : list string) : option string :=
  nth_error parts n.

(** The body of the [forEach] callback of [extractCookies]. *)
Definition add_cookie (cookie : string) (cookies : StringMap)
  : completion CookieError StringMap :=
  let nameValue := hd "" (split_on ";" cookie) in
  let parts := split_on "=" nameValue in
  let name := hd "" parts in
  match element 1 parts with
  | Some value => Normal (assign (trim name) (trim value) cookies)
  | None => Abrupt TrimOfUndefined
  end.

Fixpoint add_cookies (cookieArray : list string) (cookies : StringMap)
  : completion CookieError StringMap :=
  match cookieArray with
  | [] => Normal cookies
  | cookie :: rest =>
      match add_cookie cookie cookies with
      | Normal cookies' => add_cookies rest cookies'
      | Abrupt e => Abrupt e
      end
  end.

(** [static extractCookies(response)], on the response's set-cookie header *)
Definition extractCookies (setCookieHeaders : option HeaderValue)
  : completion CookieError StringMap :=
  match setCookieHeaders with
  | None => Normal []
  | Some (Single "") => Normal []
  | Some (Single header) => add_cookies [header] []
  | Some (Multiple headers) => add_cookies headers []
  end.

End APIHelpers.

(** ** parseFloat

    [parseFloat(text)]: leading white space is skipped, the longest prefix
    that is a decimal literal (sign, digits with an optional fraction or a
    fraction alone, an optional exponent, or Infinity) is read, and its
    value is rounded to the nearest Number, to even on a tie (the
    language allows an engine to round a literal of more than 20
    significant digits less exactly; the engines round exactly).  Without
    such a prefix the result is NaN. *)
Definition is_digit (c : ascii) : bool :=
  let n := nat_of_ascii c in
  ((48 <=? n) && (n <=? 57))%nat.

(** The digits [s] starts with, and what follows them. *)
Fixpoint digits_of (s : string) : string * string :=
  match s with
  | EmptyString => ("", "")
  | String c rest =>
      if is_digit c
      then let (digits, after) := digits_of rest in (String c digits, after)
      else ("", s)
  end.

(** The number a text of digits denotes, after the digits read so far. *)
Fixpoint digits_value (acc : Z) (digits : string) : Z :=
  match digits with
  | EmptyString => acc
  | String c rest =>
      digits_value (10 * acc + (Z.of_nat (nat_of_ascii c) - 48)) rest
  end.

(** The unsigned literal [s] starts with: its integer digits, its fraction
    digits and the text after it.  [5.], [.5] and [5] are literals, [.] is
    none. *)
Definition scan_unsigned (s : string) : option (string * string * string) :=
  let (int, rest) := digits_of s in
  match rest with
  | String c rest' =>
      if Ascii.eqb c "." then
        let (frac, rest'') := digits_of rest' in
        match int, frac with
        | EmptyString, EmptyString => None
        | _, _ => Some (int, frac, rest'')
        end
      else
        match int with
        | EmptyString => None
        | _ => Some (int, "", rest)
        end
  | EmptyString =>
      match int with
      | EmptyString => None
      | _ => Some (int, "", rest)
      end
  end.

(** The exponent part [s] starts with ([e] or [E], a sign or none, and at
    least one digit), as its value; 0 when there is none. *)
Definition scan_exponent (s : string) : Z :=
  match s with
  | String c rest =>
      if Ascii.eqb c "e" || Ascii.eqb c "E" then
        match rest with
        | String sign r =>
            if Ascii.eqb sign "+" then digits_value 0 (fst (digits_of r))
            else if Ascii.eqb sign "-" then - digits_value 0 (fst (digits_of r))
            else digits_value 0 (fst (digits_of rest))
        | EmptyString => 0
        end
      else 0
  | EmptyString => 0
  end.

(** The Number nearest to [p * 10^scale], with the sign [neg]: the quotient
    of two integers, rounded once. *)
Definition number_of_decimal (neg : bool) (p scale : Z) : float :=
  match p with
  | Zpos m =>
      let numerator :=
        if 0 <=? scale then (m * Z.to_pos (10 ^ scale))%positive else m in
      let denominator :=
        if 0 <=? scale then 1%positive else Z.to_pos (10 ^ (- scale)) in
      SF2Prim (SFdiv prec emax (S754_finite neg numerator 0)
                                (S754_finite false denominator 0))
  | _ => SF2Prim (S754_zero neg)
  end.

Definition parseFloat (text : string) : float :=
  let trimmed := trimStart text in
  let '(neg, unsigned) :=
    match trimmed with
    | String c rest =>
        if Ascii.eqb c "-" then (true, rest)
        else if Ascii.eqb c "+" then (false, rest)
        else (false, trimmed)
    | EmptyString => (false, trimmed)
    end in
  if String.prefix "Infinity" unsigned
  then (if neg then neg_infinity else infinity)
  else
    match scan_unsigned unsigned with
    | Some (int, frac, rest) =>
        number_of_decimal neg (digits_value 0 (int ++ frac))
          (scan_exponent rest - Z.of_nat (String.length frac))
    | None => nan
    end.

(** ** TestHelpers.parsePrice *)
Module TestHelpers.

(** The characters the class [[0-9.-]] holds. *)
Definition is_price_char (c : ascii) : bool :=
  is_digit c || Ascii.eqb c "." || Ascii.eqb c "-".

(** [priceString.replace(/[^0-9.-]+/g, '')]: every character outside the
    class is removed. *)
Fixpoint keep_price_chars (s : string) : string :=
  match s with
  | EmptyString => ""
  | String c rest =>
      if is_price_char c then String c (keep_price_chars rest)
      else keep_price_chars rest
  end.

(** [static parsePrice(priceString)] *)
Definition parsePrice (priceString : string) : float :=
  parseFloat (keep_price_chars priceString).

End TestHelpers.

(** Every character of [s] fails the test [p]. *)
Fixpoint none_is (p : ascii -> bool) (s : string) : bool :=
  match s with
  | EmptyString => true
  | String c rest => negb (p c) && none_is p rest
  end.

(** Every character of [s] passes the test [p]. *)
Fixpoint all_are (p : ascii -> bool) (s : string) : bool :=
  match s with
  | EmptyString => true
  | String c rest => p c && all_are p rest
  end.

(** ** Auxiliary notions of the further properties *)

(** The three lines [onEnd] prints for a failed outcome. *)
Definition failure_lines (r : Recorded.t) : list ConsoleLine :=
  [ Log ("  ❌ " ++ Recorded.fullTitle r);
    Log ("     " ++ show_optional (Recorded.error r));
    Log ("     at " ++ Recorded.file r ++ ":"
         ++ JsNumber.string_of_nat (Recorded.line r)) ].

(** All the pieces of a list of texts, one after the other. *)
Definition concat_all (pieces : list string) : string :=
  fold_right append "" pieces.

(** [sep] does not occur in [s]. *)
Fixpoint lacks (sep : ascii) (s : string) : bool :=
  match s with
  | EmptyString => true
  | String c rest => negb (Ascii.eqb c sep) && lacks sep rest
  end.

(** The part of [s] before the first [sep] (all of [s] when there is none). *)
Fixpoint before (sep : ascii) (s : string) : string :=
  match s with
  | EmptyString => ""
  | String c rest => if Ascii.eqb c sep then "" else String c (before sep rest)
  end.

(** What may follow the value of a cookie: nothing, an attribute list
    (from [;] on) or a second [=]. *)
Definition ends_value (rest : string) : bool :=
  match rest with
  | EmptyString => true
  | String c _ => Ascii.eqb c ";" || Ascii.eqb c "="
  end.

(** More sample data. *)
Module Sample2.

(** A test that failed with a timeout. *)
Definition failure : TestResult.t :=
  {| TestResult.status := Failed;
     TestResult.duration := 3012;
     TestResult.retry := 0;
     TestResult.error :=
       Some {| message := Some "Timeout 3000ms exceeded"; stack := None |};
     TestResult.stdout := [];
     TestResult.stderr := [];
     TestResult.attachments := [] |}.

(** The reporter after [onBegin] and the end of one failed test. *)
Definition afterFailure (w : bool) : CustomReporter.State Sample.Disk :=
  snd ((CustomReporter.onBegin Sample.posix Sample.config [Sample.testCase "pays"] ;;
        CustomReporter.onTestEnd (Sample.testCase "pays") failure)
         (Sample.boot w)).

(** A host like [Sample.posix] on which the reports directory does not
    exist and cannot be made on a read-only disk. *)
Definition noDirectory : Host Sample.Disk :=
  {| Date_now := Date_now Sample.posix;
     toLocaleString := toLocaleString Sample.posix;
     path_join := path_join Sample.posix;
     path_dirname := path_dirname Sample.posix;
     fs_mkdir := fun p h =>
       if Sample.writable h then (Normal tt, h) else (Abrupt "EACCES", h);
     fs_writeFile := fs_writeFile Sample.posix |}.

(** A process with none of the environment variables set. *)
Definition bareProcess : Allure.Process :=
  {| Allure.platform := "linux";
     Allure.version := "v20.11.0";
     Allure.env := fun _ => None;
     Allure.frameworkVersion := "1.40.0" |}.

End Sample2.

(** * Properties of the retry and poll helpers *)

Lemma invocations_app (a b : list Event) :
  invocations (a ++ b) = (invocations a + invocations b)%nat.
Proof.
  unfold invocations. rewrite filter_app, length_app. reflexivity.
Qed.

Lemma invocations_rounds (delay : Z) (n : nat) :
  invocations (rounds delay n) = n.
Proof.
  induction n as [|n IH]; [reflexivity|].
  change (rounds delay (S n)) with ([Invoke; Sleep delay] ++ rounds delay n)%list.
  rewrite invocations_app, IH. reflexivity.
Qed.

Lemma invocations_attempts (delay : Z) (n : nat) :
  invocations (rounds delay n ++ [Invoke]) = S n.
Proof.
  rewrite invocations_app, invocations_rounds. cbn. lia.
Qed.

Section AsyncFacts.
Context {W E T : Type}.
Variable elapse : Z -> W -> W.
Variable operation : W -> completion E T * W.
Variables maxRetries delay : Z.


Lemma world_at_next (j : nat) (w : W) :
  world_at elapse operation delay j (next_attempt elapse operation delay w)
  = world_at elapse operation delay (S j) w.
Proof.
  unfold world_at. rewrite Nat.iter_succ_r. reflexivity.
Qed.

Lemma attempt_next (j : nat) (w : W) :
  attempt elapse operation delay j (next_attempt elapse operation delay w)
  = attempt elapse operation delay (S j) w.
Proof.
  unfold attempt. rewrite world_at_next. reflexivity.
Qed.

Lemma world_after_next (j : nat) (w : W) :
  world_after elapse operation delay j (next_attempt elapse operation delay w)
  = world_after elapse operation delay (S j) w.
Proof.
  unfold world_after. rewrite world_at_next. reflexivity.
Qed.

Lemma after_attempts_next (n : nat) (m : Machine W) :
  after_attempts elapse operation delay n
    (mkMachine (next_attempt elapse operation delay (world m))
               ((trace m ++ [Invoke]) ++ [Sleep delay]))
  = after_attempts elapse operation delay (S n) m.
Proof.
  unfold after_attempts. cbn [world trace].
  rewrite world_after_next. f_equal.
  rewrite <- !app_assoc. reflexivity.
Qed.

(** One iteration of the retry loop, when the attempt succeeds. *)
Lemma retry_loop_returns fuel i lastError m v :
  i < maxRetries ->
  attempt elapse operation delay 0 (world m) = Normal v ->
  retry_loop elapse operation maxRetries delay (S fuel) i lastError m
  = (Normal v, after_attempts elapse operation delay 0 m).
Proof.
  intros Hi Hv. cbn [retry_loop].
  apply Z.ltb_lt in Hi. rewrite Hi.
  unfold try_catch, await_call, after_attempts, world_after.
  unfold attempt in Hv. cbn in Hv |- *.
  destruct (operation (world m)) as [[r|e] w']; cbn in Hv |- *;
    [injection Hv as ->; reflexivity | discriminate].
Qed.

(** One iteration of the retry loop, when the attempt throws and another
    attempt is left. *)
Lemma retry_loop_retries fuel i lastError m e :
  i < maxRetries - 1 ->
  attempt elapse operation delay 0 (world m) = Abrupt e ->
  retry_loop elapse operation maxRetries delay (S fuel) i lastError m
  = retry_loop elapse operation maxRetries delay fuel (i + 1) (Some (Raised e))
      (mkMachine (next_attempt elapse operation delay (world m))
                 ((trace m ++ [Invoke]) ++ [Sleep delay])).
Proof.
  intros Hi He. cbn [retry_loop].
  assert (Hlt : (i <? maxRetries) = true) by (apply Z.ltb_lt; lia).
  apply Z.ltb_lt in Hi. rewrite Hlt, Hi.
  unfold try_catch, await_call, bind, await_timeout, next_attempt.
  unfold attempt in He. cbn in He |- *.
  destruct (operation (world m)) as [[r|e'] w']; cbn in He |- *;
    [discriminate | injection He as ->; reflexivity].
Qed.

(** The last iteration of the retry loop, when the attempt throws. *)
Lemma retry_loop_gives_up fuel i lastError m e :
  i = maxRetries - 1 ->
  attempt elapse operation delay 0 (world m) = Abrupt e ->
  retry_loop elapse operation maxRetries delay (S fuel) i lastError m
  = (Abrupt (Raised e), after_attempts elapse operation delay 0 m).
Proof.
  intros Hi He. cbn [retry_loop].
  assert (Hlt : (i <? maxRetries) = true) by (apply Z.ltb_lt; lia).
  assert (Hge : (i <? maxRetries - 1) = false) by (apply Z.ltb_ge; lia).
  rewrite Hlt, Hge.
  unfold try_catch, await_call, bind, ret, after_attempts, world_after.
  unfold attempt in He. cbn in He |- *.
  destruct (operation (world m)) as [[r|e'] w']; cbn in He |- *;
    [discriminate|]. injection He as ->.
  assert (Hout : (i + 1 <? maxRetries) = false) by (apply Z.ltb_ge; lia).
  destruct fuel; cbn [retry_loop]; rewrite Hout; reflexivity.
Qed.

(** [k] failed attempts, then a success. *)
Lemma retry_loop_success k : forall fuel i lastError m v,
  (k < fuel)%nat ->
  i + Z.of_nat k < maxRetries ->
  throws_until elapse operation delay k (world m) ->
  attempt elapse operation delay k (world m) = Normal v ->
  retry_loop elapse operation maxRetries delay fuel i lastError m
  = (Normal v, after_attempts elapse operation delay k m).
Proof.
  induction k as [|k IH]; intros fuel i lastError m v Hfuel Hi Hfail Hok;
    (destruct fuel as [|fuel]; [lia|]).
  - apply retry_loop_returns; [lia | exact Hok].
  - destruct (Hfail 0%nat ltac:(lia)) as [e He].
    rewrite (retry_loop_retries _ _ _ _ e) by (try lia; exact He).
    rewrite (IH _ _ _ _ v); [apply f_equal, after_attempts_next | lia | lia | | ].
    + intros j Hj. cbn [world]. rewrite attempt_next. apply Hfail. lia.
    + cbn [world]. rewrite attempt_next. exact Hok.
Qed.

(** [k] failed attempts followed by the wait, then the failure of the
    last attempt the budget allows. *)
Lemma retry_loop_exhausted k : forall fuel i lastError m e,
  (k < fuel)%nat ->
  i + Z.of_nat k = maxRetries - 1 ->
  throws_until elapse operation delay k (world m) ->
  attempt elapse operation delay k (world m) = Abrupt e ->
  retry_loop elapse operation maxRetries delay fuel i lastError m
  = (Abrupt (Raised e), after_attempts elapse operation delay k m).
Proof.
  induction k as [|k IH]; intros fuel i lastError m e Hfuel Hi Hfail Hlast;
    (destruct fuel as [|fuel]; [lia|]).
  - apply retry_loop_gives_up; [lia | exact Hlast].
  - destruct (Hfail 0%nat ltac:(lia)) as [e0 He0].
    rewrite (retry_loop_retries _ _ _ _ e0) by (try lia; exact He0).
    rewrite (IH _ _ _ _ e); [apply f_equal, after_attempts_next | lia | lia | | ].
    + intros j Hj. cbn [world]. rewrite attempt_next. apply Hfail. lia.
    + cbn [world]. rewrite attempt_next. exact Hlast.
Qed.

(** The loop never needs more fuel than the iterations that are left. *)
Lemma retry_loop_fuel fuel : forall fuel' i lastError m,
  (Z.to_nat (maxRetries - i) <= fuel)%nat ->
  (Z.to_nat (maxRetries - i) <= fuel')%nat ->
  retry_loop elapse operation maxRetries delay fuel i lastError m
  = retry_loop elapse operation maxRetries delay fuel' i lastError m.
Proof.
  induction fuel as [|fuel IH]; intros fuel' i lastError m Hf Hf'.
  - assert (Hout : (i <? maxRetries) = false) by (apply Z.ltb_ge; lia).
    destruct fuel'; cbn [retry_loop]; rewrite Hout; reflexivity.
  - destruct (Z.ltb_spec i maxRetries) as [Hlt|Hge].
    + destruct fuel' as [|fuel']; [lia|].
      cbn [retry_loop]. apply Z.ltb_lt in Hlt as Hb. rewrite Hb.
      unfold try_catch, bind.
      destruct (await_call operation m) as [[r|x] m']; [reflexivity|].
      destruct (i <? maxRetries - 1); unfold await_timeout, ret;
        apply IH; lia.
    + assert (Hout : (i <? maxRetries) = false) by (apply Z.ltb_ge; lia).
      destruct fuel'; cbn [retry_loop]; rewrite Hout; reflexivity.
Qed.

(** *** The poll loop *)

Variable condition : T -> bool.

Ltac run_attempt H :=
  unfold bind, await_call, ret, throw, await_timeout, next_attempt,
    after_attempts, world_after;
  unfold attempt in H; cbn in H |- *;
  destruct (operation (world _)) as [[?r|?e] ?w]; cbn in H |- *;
  try discriminate; injection H as ->.

(** One iteration of the poll loop, when the condition holds. *)
Lemma wait_loop_returns fuel i m v :
  i < maxRetries ->
  attempt elapse operation delay 0 (world m) = Normal v ->
  condition v = true ->
  wait_loop elapse operation condition maxRetries delay (S fuel) i m
  = (Normal v, after_attempts elapse operation delay 0 m).
Proof.
  intros Hi Hv Hc. cbn [wait_loop].
  apply Z.ltb_lt in Hi. rewrite Hi.
  run_attempt Hv. rewrite Hc. reflexivity.
Qed.

(** One iteration of the poll loop, when the operation throws. *)
Lemma wait_loop_throws fuel i m e :
  i < maxRetries ->
  attempt elapse operation delay 0 (world m) = Abrupt e ->
  wait_loop elapse operation condition maxRetries delay (S fuel) i m
  = (Abrupt (Raised e), after_attempts elapse operation delay 0 m).
Proof.
  intros Hi He. cbn [wait_loop].
  apply Z.ltb_lt in Hi. rewrite Hi.
  run_attempt He. reflexivity.
Qed.

(** One iteration of the poll loop, when the condition fails and another
    attempt is left. *)
Lemma wait_loop_polls fuel i m r :
  i < maxRetries - 1 ->
  attempt elapse operation delay 0 (world m) = Normal r ->
  condition r = false ->
  wait_loop elapse operation condition maxRetries delay (S fuel) i m
  = wait_loop elapse operation condition maxRetries delay fuel (i + 1)
      (mkMachine (next_attempt elapse operation delay (world m))
                 ((trace m ++ [Invoke]) ++ [Sleep delay])).
Proof.
  intros Hi Hr Hc. cbn [wait_loop].
  assert (Hlt : (i <? maxRetries) = true) by (apply Z.ltb_lt; lia).
  apply Z.ltb_lt in Hi. rewrite Hlt, Hi.
  run_attempt Hr. rewrite Hc. reflexivity.
Qed.

(** The last iteration of the poll loop, when the condition fails. *)
Lemma wait_loop_gives_up fuel i m r :
  i = maxRetries - 1 ->
  attempt elapse operation delay 0 (world m) = Normal r ->
  condition r = false ->
  wait_loop elapse operation condition maxRetries delay (S fuel) i m
  = (Abrupt (NewError condition_not_met), after_attempts elapse operation delay 0 m).
Proof.
  intros Hi Hr Hc. cbn [wait_loop].
  assert (Hlt : (i <? maxRetries) = true) by (apply Z.ltb_lt; lia).
  assert (Hge : (i <? maxRetries - 1) = false) by (apply Z.ltb_ge; lia).
  rewrite Hlt, Hge.
  run_attempt Hr. rewrite Hc.
  assert (Hout : (i + 1 <? maxRetries) = false) by (apply Z.ltb_ge; lia).
  destruct fuel; cbn [wait_loop]; rewrite Hout; reflexivity.
Qed.

Lemma unmet_until_next k w :
  unmet_until elapse operation condition delay (S k) w ->
  unmet_until elapse operation condition delay k (next_attempt elapse operation delay w).
Proof.
  intros Hall j Hj. rewrite attempt_next. apply Hall. lia.
Qed.

Lemma wait_loop_success k : forall fuel i m v,
  (k < fuel)%nat ->
  i + Z.of_nat k < maxRetries ->
  unmet_until elapse operation condition delay k (world m) ->
  attempt elapse operation delay k (world m) = Normal v ->
  condition v = true ->
  wait_loop elapse operation condition maxRetries delay fuel i m
  = (Normal v, after_attempts elapse operation delay k m).
Proof.
  induction k as [|k IH]; intros fuel i m v Hfuel Hi Hunmet Hv Hc;
    (destruct fuel as [|fuel]; [lia|]).
  - apply wait_loop_returns; [lia | exact Hv | exact Hc].
  - destruct (Hunmet 0%nat ltac:(lia)) as (r & Hr & Hcr).
    rewrite (wait_loop_polls _ _ _ r) by (try lia; assumption).
    rewrite (IH _ _ _ v); [apply f_equal, after_attempts_next | lia | lia | | | exact Hc].
    + apply unmet_until_next, Hunmet.
    + cbn [world]. rewrite attempt_next. exact Hv.
Qed.

Lemma wait_loop_failure k : forall fuel i m e,
  (k < fuel)%nat ->
  i + Z.of_nat k < maxRetries ->
  unmet_until elapse operation condition delay k (world m) ->
  attempt elapse operation delay k (world m) = Abrupt e ->
  wait_loop elapse operation condition maxRetries delay fuel i m
  = (Abrupt (Raised e), after_attempts elapse operation delay k m).
Proof.
  induction k as [|k IH]; intros fuel i m e Hfuel Hi Hunmet He;
    (destruct fuel as [|fuel]; [lia|]).
  - apply wait_loop_throws; [lia | exact He].
  - destruct (Hunmet 0%nat ltac:(lia)) as (r & Hr & Hcr).
    rewrite (wait_loop_polls _ _ _ r) by (try lia; assumption).
    rewrite (IH _ _ _ e); [apply f_equal, after_attempts_next | lia | lia | | ].
    + apply unmet_until_next, Hunmet.
    + cbn [world]. rewrite attempt_next. exact He.
Qed.

Lemma wait_loop_exhausted k : forall fuel i m,
  (k < fuel)%nat ->
  i + Z.of_nat k = maxRetries - 1 ->
  unmet_until elapse operation condition delay (S k) (world m) ->
  wait_loop elapse operation condition maxRetries delay fuel i m
  = (Abrupt (NewError condition_not_met), after_attempts elapse operation delay k m).
Proof.
  induction k as [|k IH]; intros fuel i m Hfuel Hi Hunmet;
    (destruct fuel as [|fuel]; [lia|]);
    destruct (Hunmet 0%nat ltac:(lia)) as (r & Hr & Hcr).
  - apply (wait_loop_gives_up _ _ _ r); [lia | exact Hr | exact Hcr].
  - rewrite (wait_loop_polls _ _ _ r) by (try lia; assumption).
    rewrite IH; [apply f_equal, after_attempts_next | lia | lia | ].
    apply unmet_until_next, Hunmet.
Qed.

(** The poll loop never needs more fuel than the iterations that are left. *)
Lemma wait_loop_fuel fuel : forall fuel' i m,
  (Z.to_nat (maxRetries - i) <= fuel)%nat ->
  (Z.to_nat (maxRetries - i) <= fuel')%nat ->
  wait_loop elapse operation condition maxRetries delay fuel i m
  = wait_loop elapse operation condition maxRetries delay fuel' i m.
Proof.
  induction fuel as [|fuel IH]; intros fuel' i m Hf Hf'.
  - assert (Hout : (i <? maxRetries) = false) by (apply Z.ltb_ge; lia).
    destruct fuel'; cbn [wait_loop]; rewrite Hout; reflexivity.
  - destruct (Z.ltb_spec i maxRetries) as [Hlt|Hge].
    + destruct fuel' as [|fuel']; [lia|].
      cbn [wait_loop]. apply Z.ltb_lt in Hlt as Hb. rewrite Hb.
      unfold bind.
      destruct (await_call operation m) as [[r|x] m']; [|reflexivity].
      destruct (condition r); [reflexivity|].
      destruct (i <? maxRetries - 1); unfold await_timeout, ret;
        apply IH; lia.
    + assert (Hout : (i <? maxRetries) = false) by (apply Z.ltb_ge; lia).
      destruct fuel'; cbn [wait_loop]; rewrite Hout; reflexivity.
Qed.

(** A budget of zero or fewer attempts: the loops are not entered. *)
Lemma retry_loop_not_entered fuel i lastError m :
  maxRetries <= i ->
  retry_loop elapse operation maxRetries delay fuel i lastError m
  = throw_lastError lastError m.
Proof.
  intros Hi. assert (Hout : (i <? maxRetries) = false) by (apply Z.ltb_ge; lia).
  destruct fuel; cbn [retry_loop]; rewrite Hout; reflexivity.
Qed.

Lemma wait_loop_not_entered fuel i m :
  maxRetries <= i ->
  wait_loop elapse operation condition maxRetries delay fuel i m
  = (Abrupt (NewError condition_not_met), m).
Proof.
  intros Hi. assert (Hout : (i <? maxRetries) = false) by (apply Z.ltb_ge; lia).
  destruct fuel; cbn [wait_loop]; rewrite Hout; reflexivity.
Qed.

Lemma invocations_after_attempts n m :
  invocations (trace (after_attempts elapse operation delay n m))
  = (invocations (trace m) + S n)%nat.
Proof.
  unfold after_attempts. cbn [trace].
  rewrite invocations_app, invocations_attempts. reflexivity.
Qed.

(** *** The claims about the helpers *)

(** C4: when the operation throws on every one of the [maxRetries] attempts,
    [retryOperation] throws the value the last attempt threw, after exactly
    [maxRetries] invocations. *)
Theorem retryOperation_propagates_last_failure (m : Machine W) (e : E) :
  1 <= maxRetries ->
  throws_until elapse operation delay (Z.to_nat maxRetries - 1) (world m) ->
  attempt elapse operation delay (Z.to_nat maxRetries - 1) (world m) = Abrupt e ->
  retryOperation elapse operation maxRetries delay m
  = (Abrupt (Raised e), after_attempts elapse operation delay (Z.to_nat maxRetries - 1) m)
  /\ invocations (trace (after_attempts elapse operation delay (Z.to_nat maxRetries - 1) m))
     = (invocations (trace m) + Z.to_nat maxRetries)%nat.
Proof.
  intros Hmax Hall Hlast. split.
  - unfold retryOperation.
    apply retry_loop_exhausted; [lia | lia | exact Hall | exact Hlast].
  - rewrite invocations_after_attempts. lia.
Qed.

(** C5: when the operation throws on its first [k - 1] invocations and
    succeeds on invocation [k <= maxRetries], [retryOperation] returns that
    value and has invoked the operation exactly [k] times. *)
Theorem retryOperation_returns_first_success (m : Machine W) (k : nat) (v : T) :
  (1 <= k)%nat ->
  Z.of_nat k <= maxRetries ->
  throws_until elapse operation delay (k - 1) (world m) ->
  attempt elapse operation delay (k - 1) (world m) = Normal v ->
  retryOperation elapse operation maxRetries delay m
  = (Normal v, after_attempts elapse operation delay (k - 1) m)
  /\ invocations (trace (after_attempts elapse operation delay (k - 1) m))
     = (invocations (trace m) + k)%nat.
Proof.
  intros Hk Hmax Hfail Hok. split.
  - unfold retryOperation. apply retry_loop_success; [lia | lia | exact Hfail | exact Hok].
  - rewrite invocations_after_attempts. lia.
Qed.

(** C6: when the condition first holds on the result of attempt
    [k <= maxRetries], [waitForAPIResponse] returns that result and has
    invoked the operation exactly [k] times. *)
Theorem waitForAPIResponse_returns_first_match (m : Machine W) (k : nat) (v : T) :
  (1 <= k)%nat ->
  Z.of_nat k <= maxRetries ->
  unmet_until elapse operation condition delay (k - 1) (world m) ->
  attempt elapse operation delay (k - 1) (world m) = Normal v ->
  condition v = true ->
  waitForAPIResponse elapse operation condition maxRetries delay m
  = (Normal v, after_attempts elapse operation delay (k - 1) m)
  /\ invocations (trace (after_attempts elapse operation delay (k - 1) m))
     = (invocations (trace m) + k)%nat.
Proof.
  intros Hk Hmax Hunmet Hv Hc. split.
  - unfold waitForAPIResponse.
    apply wait_loop_success; [lia | lia | exact Hunmet | exact Hv | exact Hc].
  - rewrite invocations_after_attempts. lia.
Qed.

(** C7: when attempt [k <= maxRetries] of the operation throws (the
    condition having failed on the results before it),
    [waitForAPIResponse] throws that very value at once: the operation was
    invoked [k] times, each earlier attempt followed by a wait, and neither
    a wait nor an invocation follows the throw. *)
Theorem waitForAPIResponse_propagates_throw (m : Machine W) (k : nat) (e : E) :
  (1 <= k)%nat ->
  Z.of_nat k <= maxRetries ->
  unmet_until elapse operation condition delay (k - 1) (world m) ->
  attempt elapse operation delay (k - 1) (world m) = Abrupt e ->
  waitForAPIResponse elapse operation condition maxRetries delay m
  = (Abrupt (Raised e),
     mkMachine (world_after elapse operation delay (k - 1) (world m))
               (trace m ++ rounds delay (k - 1) ++ [Invoke]))
  /\ invocations (trace m ++ rounds delay (k - 1) ++ [Invoke])
     = (invocations (trace m) + k)%nat.
Proof.
  intros Hk Hmax Hunmet He. split.
  - unfold waitForAPIResponse.
    apply wait_loop_failure; [lia | lia | exact Hunmet | exact He].
  - rewrite invocations_app, invocations_attempts. lia.
Qed.

(** C8: when the condition holds on none of the [maxRetries] results,
    [waitForAPIResponse] throws [new Error('API response condition not met
    within timeout')], an error made of that message alone, after
    [maxRetries] invocations; no result is returned. *)
Theorem waitForAPIResponse_times_out (m : Machine W) :
  unmet_until elapse operation condition delay (Z.to_nat maxRetries) (world m) ->
  let run := waitForAPIResponse elapse operation condition maxRetries delay m in
  fst run = Abrupt (NewError "API response condition not met within timeout")
  /\ invocations (trace (snd run))
     = (invocations (trace m) + Z.to_nat maxRetries)%nat.
Proof.
  intros Hunmet run. subst run. unfold waitForAPIResponse.
  destruct (Z.to_nat maxRetries) as [|n] eqn:Hn.
  - rewrite wait_loop_not_entered by lia. cbn. split; [reflexivity | lia].
  - rewrite (wait_loop_exhausted n) by (try lia; exact Hunmet).
    cbn [fst snd]. split; [reflexivity | apply invocations_after_attempts].
Qed.

(** C9, as the code has it: with [maxRetries <= 0] neither helper invokes
    the operation or waits, and both throw at once; [waitForAPIResponse]
    throws the same "condition not met" error as for an exhausted budget. *)
Theorem nonpositive_budget_throws_at_once (m : Machine W) :
  maxRetries <= 0 ->
  (exists x, retryOperation elapse operation maxRetries delay m = (Abrupt x, m))
  /\ waitForAPIResponse elapse operation condition maxRetries delay m
     = (Abrupt (NewError condition_not_met), m).
Proof.
  intros Hmax. split.
  - exists Undefined. unfold retryOperation.
    rewrite retry_loop_not_entered by lia. reflexivity.
  - unfold waitForAPIResponse. apply wait_loop_not_entered. lia.
Qed.

End AsyncFacts.

(** *** The helpers on concrete operations *)

Ltac each_attempt :=
  let j := fresh "j" in
  let Hj := fresh "Hj" in
  intros j Hj;
  repeat (first [ exfalso; lia
                | destruct j as [|j]; [eexists; repeat split; reflexivity|] ]).

(** An operation that throws 0, 1, 2 on its three attempts: the value
    thrown on is 2, the one of the third attempt, not the one of the first. *)
Lemma retryOperation_propagates_last_failure_witness :
  retryOperation Sample.idle Sample.failingOp 3 0 Sample.start
  = (Abrupt (Raised 2%nat),
     mkMachine 3%nat [Invoke; Sleep 0; Invoke; Sleep 0; Invoke])
  /\ invocations [Invoke; Sleep 0; Invoke; Sleep 0; Invoke] = 3%nat.
Proof.
  apply (retryOperation_propagates_last_failure
           Sample.idle Sample.failingOp 3 0 Sample.start 2%nat).
  - lia.
  - each_attempt.
  - reflexivity.
Defined.

(** An operation that throws twice and then answers: three invocations. *)
Lemma retryOperation_returns_first_success_witness :
  retryOperation Sample.idle (Sample.flakyOp 2) 3 0 Sample.start
  = (Normal 2%nat,
     mkMachine 3%nat [Invoke; Sleep 0; Invoke; Sleep 0; Invoke])
  /\ invocations [Invoke; Sleep 0; Invoke; Sleep 0; Invoke] = 3%nat.
Proof.
  apply (retryOperation_returns_first_success
           Sample.idle (Sample.flakyOp 2) 3 0 Sample.start 3 2%nat).
  - lia.
  - lia.
  - each_attempt.
  - reflexivity.
Defined.

(** A budget of five, a condition that holds from the fourth result on:
    the fourth result is returned after four invocations. *)
Lemma waitForAPIResponse_returns_first_match_witness :
  waitForAPIResponse Sample.idle Sample.countingOp (fun r => 3 <=? r)%nat 5 0
    Sample.start
  = (Normal 3%nat,
     mkMachine 4%nat
       [Invoke; Sleep 0; Invoke; Sleep 0; Invoke; Sleep 0; Invoke])
  /\ invocations [Invoke; Sleep 0; Invoke; Sleep 0; Invoke; Sleep 0; Invoke]
     = 4%nat.
Proof.
  apply (waitForAPIResponse_returns_first_match
           Sample.idle Sample.countingOp 5 0 (fun r => 3 <=? r)%nat
           Sample.start 4 3%nat).
  - lia.
  - lia.
  - each_attempt.
  - reflexivity.
  - reflexivity.
Defined.

(** The operation throws on its second attempt: no third invocation. *)
Lemma waitForAPIResponse_propagates_throw_witness :
  waitForAPIResponse Sample.idle Sample.throwsSecond (fun _ => false) 5 0
    Sample.start
  = (Abrupt (Raised 1%nat), mkMachine 2%nat [Invoke; Sleep 0; Invoke])
  /\ invocations [Invoke; Sleep 0; Invoke] = 2%nat.
Proof.
  apply (waitForAPIResponse_propagates_throw
           Sample.idle Sample.throwsSecond 5 0 (fun _ => false)
           Sample.start 2 1%nat).
  - lia.
  - lia.
  - each_attempt.
  - reflexivity.
Defined.

(** Three results, none of which meets the condition. *)
Lemma waitForAPIResponse_times_out_witness :
  fst (waitForAPIResponse Sample.idle Sample.countingOp (fun _ => false) 3 0
         Sample.start)
  = Abrupt (NewError "API response condition not met within timeout")
  /\ invocations
       (trace (snd (waitForAPIResponse Sample.idle Sample.countingOp
                      (fun _ => false) 3 0 Sample.start)))
     = 3%nat.
Proof.
  apply (waitForAPIResponse_times_out
           Sample.idle Sample.countingOp 3 0 (fun _ => false) Sample.start).
  each_attempt.
Defined.

Lemma nonpositive_budget_throws_at_once_witness :
  (exists x, retryOperation Sample.idle Sample.countingOp 0 1000 Sample.start
             = (Abrupt x, Sample.start))
  /\ waitForAPIResponse Sample.idle Sample.countingOp (fun _ => true) 0 1000
       Sample.start
     = (Abrupt (NewError condition_not_met), Sample.start).
Proof.
  apply (nonpositive_budget_throws_at_once
           Sample.idle Sample.countingOp 0 1000 (fun _ => true) Sample.start).
  lia.
Defined.

(** C9 fails as stated: with [maxRetries = 0], [retryOperation] throws
    [undefined] and [waitForAPIResponse] throws the error of an exhausted
    poll (the very value a budget of one attempt ends with); neither is a
    configuration-class error. *)
Lemma nonpositive_budget_is_no_configuration_error :
  ~ fails_fast_with_configuration_error
      (retryOperation Sample.idle Sample.countingOp 0 1000 Sample.start)
  /\ ~ fails_fast_with_configuration_error
        (waitForAPIResponse Sample.idle Sample.countingOp (fun _ => true) 0 1000
           Sample.start)
  /\ fst (waitForAPIResponse Sample.idle Sample.countingOp (fun _ => true) 0 1000
            Sample.start)
     = fst (waitForAPIResponse Sample.idle Sample.countingOp (fun _ => false) 1 1000
              Sample.start).
Proof.
  repeat split.
  - intros (x & Hx & Hclass & _). cbn in Hx. injection Hx as <-. discriminate Hclass.
  - intros (x & Hx & Hclass & _). cbn in Hx. injection Hx as <-. discriminate Hclass.
Qed.

(** * Properties of the reporter *)

Lemma status_is_passed (s : TestStatus) :
  status_is s "passed" = true <-> s = Passed.
Proof.
  destruct s; cbn; split; intros Hs; try reflexivity; discriminate Hs.
Qed.

Section FlakyFacts.
Import FlakySpec.
Local Open Scope nat_scope.

Lemma is_flaky_spec (r : Recorded.t) :
  CustomReporter.is_flaky r = true
  <-> 0 < Recorded.retry r /\ Recorded.status r = Passed.
Proof.
  unfold CustomReporter.is_flaky.
  rewrite andb_true_iff, Nat.ltb_lt, status_is_passed. reflexivity.
Qed.

Lemma in_group (key : string) (rs : list Recorded.t) (r : Recorded.t) :
  In r (group key rs) <-> In r rs /\ Recorded.fullTitle r = key.
Proof.
  unfold group. rewrite filter_In, String.eqb_eq. reflexivity.
Qed.

Lemma max_retry_upper (g : list Recorded.t) (r : Recorded.t) :
  In r g -> Recorded.retry r <= max_retry g.
Proof.
  unfold max_retry. induction g as [|a g IH]; intros Hin; [contradiction|].
  cbn. destruct Hin as [->|Hin]; [lia|]. specialize (IH Hin). lia.
Qed.

Lemma max_retry_least (g : list Recorded.t) (n : nat) :
  (forall r, In r g -> Recorded.retry r <= n) -> max_retry g <= n.
Proof.
  unfold max_retry. induction g as [|a g IH]; intros Hall; cbn; [lia|].
  assert (Ha := Hall a (or_introl eq_refl)).
  assert (Hg : forall r, In r g -> Recorded.retry r <= n)
    by (intros r Hr; apply Hall; right; exact Hr).
  specialize (IH Hg). lia.
Qed.

Lemma passed_is_last_tail (a : Recorded.t) (rs : list Recorded.t) :
  passed_is_last (a :: rs) -> passed_is_last rs.
Proof.
  intros Hlast r r' Hr Hr'. apply Hlast; right; assumption.
Qed.

(** Under the two assumptions, no two flaky outcomes share a title. *)
Lemma flaky_titles_NoDup (rs : list Recorded.t) :
  NoDup (map attempt_id rs) ->
  passed_is_last rs ->
  NoDup (map Recorded.fullTitle (filter CustomReporter.is_flaky rs)).
Proof.
  induction rs as [|a rs IH]; intros Hids Hlast; [constructor|].
  cbn [map] in Hids. apply NoDup_cons_iff in Hids as [Hfresh Hids].
  specialize (IH Hids (passed_is_last_tail _ _ Hlast)).
  cbn [filter]. destruct (CustomReporter.is_flaky a) eqn:Ha; [|exact IH].
  cbn [map]. constructor; [|exact IH].
  intros Hdup. apply in_map_iff in Hdup as (r' & Htitle & Hin).
  apply filter_In in Hin as [Hin Hr'].
  apply is_flaky_spec in Ha as [_ Hpa]. apply is_flaky_spec in Hr' as [_ Hpr'].
  assert (H1 : Recorded.retry r' <= Recorded.retry a).
  { apply Hlast; [left; reflexivity | right; exact Hin | exact Htitle | exact Hpa]. }
  assert (H2 : Recorded.retry a <= Recorded.retry r').
  { apply Hlast;
      [right; exact Hin | left; reflexivity | symmetry; exact Htitle | exact Hpr']. }
  apply Hfresh, in_map_iff. exists r'. split; [|exact Hin].
  unfold attempt_id. f_equal; [exact Htitle | lia].
Qed.

(** A title has a flaky outcome exactly when its group is flaky. *)
Lemma flaky_title_iff (rs : list Recorded.t) (key : string) :
  passed_is_last rs ->
  In key (map Recorded.fullTitle (filter CustomReporter.is_flaky rs))
  <-> In key (filter (fun key => group_is_flaky (group key rs)) (keys rs)).
Proof.
  intros Hlast. rewrite in_map_iff, filter_In. unfold keys. rewrite nodup_In.
  split.
  - intros (r & Htitle & Hin). apply filter_In in Hin as [Hin Hr].
    apply is_flaky_spec in Hr as [Hretry Hpassed].
    assert (Hg : In r (group key rs)) by (apply in_group; auto).
    assert (Hmax : max_retry (group key rs) = Recorded.retry r).
    { apply Nat.le_antisymm; [|apply max_retry_upper; exact Hg].
      apply max_retry_least. intros r' Hr'. apply in_group in Hr' as [Hr' Hk].
      apply Hlast; [exact Hin | exact Hr' | congruence | exact Hpassed]. }
    split; [apply in_map_iff; exists r; auto|].
    unfold group_is_flaky. rewrite Hmax. apply andb_true_iff. split.
    + apply Nat.ltb_lt. exact Hretry.
    + apply existsb_exists. exists r. split; [exact Hg|].
      unfold passed_at. rewrite Nat.eqb_refl. apply status_is_passed. exact Hpassed.
  - intros [_ Hflaky]. unfold group_is_flaky in Hflaky.
    apply andb_true_iff in Hflaky as [Hpos Hex].
    apply Nat.ltb_lt in Hpos.
    apply existsb_exists in Hex as (r & Hg & Hat).
    unfold passed_at in Hat. apply andb_true_iff in Hat as [Heq Hpassed].
    apply Nat.eqb_eq in Heq. apply in_group in Hg as [Hin Htitle].
    exists r. split; [exact Htitle|]. apply filter_In. split; [exact Hin|].
    apply is_flaky_spec. split; [lia | apply status_is_passed; exact Hpassed].
Qed.

Lemma flaky_count_is_flakyCount (rs : list Recorded.t) :
  NoDup (map attempt_id rs) ->
  passed_is_last rs ->
  CustomReporter.flaky_count rs = flakyCount rs.
Proof.
  intros Hids Hlast. unfold CustomReporter.flaky_count, flakyCount.
  rewrite <- (length_map Recorded.fullTitle).
  apply Permutation_length, NoDup_Permutation.
  - apply flaky_titles_NoDup; assumption.
  - apply NoDup_filter, NoDup_nodup.
  - intros key. apply flaky_title_iff, Hlast.
Qed.

End FlakyFacts.

(** *** Pieces of a text *)

Lemma append_assoc (a b c : string) : (a ++ b) ++ c = a ++ (b ++ c).
Proof.
  induction a as [|ch a IH]; cbn; [reflexivity | rewrite IH; reflexivity].
Qed.

Lemma append_empty_r (a : string) : a ++ "" = a.
Proof.
  induction a as [|ch a IH]; cbn; [reflexivity | rewrite IH; reflexivity].
Qed.

Lemma occurs_at_end (piece md : string) : occurs_in piece (md ++ piece).
Proof.
  exists md, "". rewrite append_empty_r. reflexivity.
Qed.

Lemma occurs_before (piece md rest : string) :
  occurs_in piece (md ++ piece ++ rest).
Proof.
  exists md, rest. reflexivity.
Qed.

Lemma occurs_append_r (piece md rest : string) :
  occurs_in piece md -> occurs_in piece (md ++ rest).
Proof.
  intros (pre & post & ->). exists pre, (post ++ rest).
  rewrite !append_assoc. reflexivity.
Qed.

Lemma occurs_append_each {A} (f : A -> string) (l : list A) : forall piece md,
  occurs_in piece md -> occurs_in piece (CustomReporter.append_each f l md).
Proof.
  induction l as [|a l IH]; intros piece md Hmd; [exact Hmd|].
  cbn. apply IH, occurs_append_r, Hmd.
Qed.

Lemma occurs_append_each_member {A} (f : A -> string) (l : list A) : forall x md,
  In x l -> occurs_in (f x) (CustomReporter.append_each f l md).
Proof.
  induction l as [|a l IH]; intros x md Hin; [contradiction|].
  cbn. destruct Hin as [->|Hin].
  - apply occurs_append_each, occurs_at_end.
  - apply IH, Hin.
Qed.

(** *** The Markdown summary *)
Section MarkdownFacts.
Context {H : Type}.
Variable host : Host H.
Variable self : CustomReporter.t.
Variable summary : Summary.t.

Local Abbreviation md := (CustomReporter.generateMarkdownSummary host self summary).

Ltac find_piece :=
  first
    [ apply occurs_at_end
    | apply occurs_append_r; find_piece
    | apply occurs_append_each; find_piece
    | match goal with
      | |- occurs_in _ (if ?b then _ else _) => destruct b; find_piece
      end ].

(** Every recorded outcome has its row in the full-results table. *)
Lemma details_row_occurs (r : Recorded.t) :
  In r (CustomReporter.results self) ->
  occurs_in (CustomReporter.details_row r) md.
Proof.
  intros Hin. unfold CustomReporter.generateMarkdownSummary. cbv zeta.
  apply occurs_append_r, occurs_append_each_member, Hin.
Qed.

(** The four rows of the summary table. *)
Lemma summary_rows_occur :
  let total := Summary.totalTests summary in
  occurs_in (CustomReporter.summary_row "✅ Passed" (Summary.passed summary) total) md
  /\ occurs_in (CustomReporter.summary_row "❌ Failed" (Summary.failed summary) total) md
  /\ occurs_in (CustomReporter.summary_row "⏭️ Skipped" (Summary.skipped summary) total) md
  /\ occurs_in (CustomReporter.summary_row "🔄 Flaky" (Summary.flaky summary) total) md.
Proof.
  unfold CustomReporter.generateMarkdownSummary. cbv zeta.
  repeat split; find_piece.
Qed.

End MarkdownFacts.

Lemma percentage_of_nothing : CustomReporter.percentage 0 0 = "NaN".
Proof. vm_compute. reflexivity. Qed.

Lemma summary_row_of_nothing (label : string) :
  CustomReporter.summary_row label 0 0 = "| " ++ label ++ " | 0 | NaN% |" ++ nl.
Proof.
  unfold CustomReporter.summary_row. rewrite percentage_of_nothing. reflexivity.
Qed.

(** C3, evaluated on the code: with no recorded outcome every percentage
    of the summary table is [(0 / 0) * 100], which [toFixed(1)] prints as
    "NaN"; the four rows of summary.md read "NaN%". *)
Theorem zero_tests_render_NaN {H : Type} (host : Host H) (start endTime : Z)
        (status : option RunStatus) (began : option Z) (cfg : option FullConfig) :
  let self := {| CustomReporter.results := [];
                 CustomReporter.startTime := began;
                 CustomReporter.config := cfg |} in
  let md := CustomReporter.generateMarkdownSummary host self
              (CustomReporter.make_summary self start endTime status) in
  occurs_in ("| ✅ Passed | 0 | NaN% |" ++ nl) md
  /\ occurs_in ("| ❌ Failed | 0 | NaN% |" ++ nl) md
  /\ occurs_in ("| ⏭️ Skipped | 0 | NaN% |" ++ nl) md
  /\ occurs_in ("| 🔄 Flaky | 0 | NaN% |" ++ nl) md.
Proof.
  intros self md.
  pose proof (summary_rows_occur host self
                (CustomReporter.make_summary self start endTime status)) as Hrows.
  cbv zeta in Hrows. cbn [CustomReporter.make_summary Summary.totalTests
    Summary.passed Summary.failed Summary.skipped Summary.flaky
    CustomReporter.results self] in Hrows.
  change (CustomReporter.count_status _ []) with 0%nat in Hrows.
  change (CustomReporter.flaky_count []) with 0%nat in Hrows.
  change (List.length (@nil Recorded.t)) with 0%nat in Hrows.
  rewrite !summary_row_of_nothing in Hrows. exact Hrows.
Qed.

(** What [onTestEnd] does to the reporter and the console. *)
Lemma onTestEnd_run {H : Type} (test : TestCase.t) (result : TestResult.t)
      (s : CustomReporter.State H) :
  CustomReporter.onTestEnd test result s
  = (Normal tt,
     {| CustomReporter.this :=
          {| CustomReporter.results :=
               (CustomReporter.results (CustomReporter.this s)
                  ++ [CustomReporter.testResult test result])%list;
             CustomReporter.startTime := CustomReporter.startTime (CustomReporter.this s);
             CustomReporter.config := CustomReporter.config (CustomReporter.this s) |};
        CustomReporter.machine := CustomReporter.machine s;
        CustomReporter.console :=
          (CustomReporter.console s
             ++ Log (CustomReporter.progress_line test result)
             :: match TestResult.error result with
                | Some e => [Err ("   " ++ show_optional (message e))]
                | None => []
                end)%list |}).
Proof.
  unfold CustomReporter.onTestEnd, bind, CustomReporter.get_this,
    CustomReporter.set_this, CustomReporter.console_log,
    CustomReporter.console_error, ret.
  destruct (TestResult.error result); cbn;
    [rewrite <- app_assoc | ]; reflexivity.
Qed.

(** C10: for an outcome whose status is interrupted, [onTestEnd] prints the
    progress line with the stop sign, and the full-results table of
    summary.md shows the same outcome with the question mark. *)
Theorem interrupted_outcome_icons {H : Type} (host : Host H)
        (test : TestCase.t) (result : TestResult.t)
        (s : CustomReporter.State H)
        (self : CustomReporter.t) (summary : Summary.t) :
  TestResult.status result = Interrupted ->
  In (CustomReporter.testResult test result) (CustomReporter.results self) ->
  (exists rest,
      CustomReporter.console (snd (CustomReporter.onTestEnd test result s))
      = (CustomReporter.console s
           ++ Log ("🛑 " ++ TestCase.title test ++ " ("
                   ++ JsNumber.string_of_nat (TestResult.duration result) ++ "ms)")
           :: rest)%list)
  /\ occurs_in
       ("| " ++ TestCase.title test ++ " | ❓ | "
        ++ JsNumber.string_of_nat (TestResult.duration result) ++ "ms | "
        ++ or_else (Some (String.concat ", " (TestCase.tags test))) "-"
        ++ " |" ++ nl)
       (CustomReporter.generateMarkdownSummary host self summary).
Proof.
  intros Hstatus Hin. split.
  - rewrite onTestEnd_run. cbn [snd CustomReporter.console].
    unfold CustomReporter.progress_line. rewrite Hstatus. eexists. reflexivity.
  - apply (details_row_occurs host self summary) in Hin.
    unfold CustomReporter.details_row in Hin.
    cbn [CustomReporter.testResult Recorded.title Recorded.status
         Recorded.duration Recorded.tags] in Hin.
    rewrite Hstatus in Hin. exact Hin.
Qed.

Lemma interrupted_outcome_icons_witness :
  (exists rest,
      CustomReporter.console
        (snd (CustomReporter.onTestEnd (Sample.testCase "logs in")
                (Sample.testResult Interrupted 0) (Sample.boot true)))
      = ([] ++ Log "🛑 logs in (12ms)" :: rest)%list)
  /\ occurs_in
       ("| logs in | ❓ | 12ms | - |" ++ nl)
       (CustomReporter.generateMarkdownSummary Sample.posix
          {| CustomReporter.results := [Sample.outcome "logs in" 0 Interrupted];
             CustomReporter.startTime := Some 0;
             CustomReporter.config := Some Sample.config |}
          (CustomReporter.make_summary
             {| CustomReporter.results := [Sample.outcome "logs in" 0 Interrupted];
                CustomReporter.startTime := Some 0;
                CustomReporter.config := Some Sample.config |}
             0 5 (Some RunInterrupted))).
Proof.
  apply (interrupted_outcome_icons Sample.posix (Sample.testCase "logs in")
           (Sample.testResult Interrupted 0)).
  - reflexivity.
  - left. reflexivity.
Defined.

(** *** The flaky count *)

(** C2, as the code has it: the summary's flaky field counts the recorded
    outcomes that passed on a retry; this is the number of flaky groups
    whenever every attempt of a test is recorded once and no attempt of a
    test follows one that passed. *)
Theorem summary_flaky_counts_groups (self : CustomReporter.t) (start endTime : Z)
        (status : option RunStatus) :
  NoDup (map FlakySpec.attempt_id (CustomReporter.results self)) ->
  FlakySpec.passed_is_last (CustomReporter.results self) ->
  let summary := CustomReporter.make_summary self start endTime status in
  Summary.flaky summary
  = List.length (filter (fun r => (0 <? Recorded.retry r)%nat
                                  && status_is (Recorded.status r) "passed")
                        (CustomReporter.results self))
  /\ Summary.flaky summary = FlakySpec.flakyCount (CustomReporter.results self).
Proof.
  intros Hids Hlast summary. split; [reflexivity|].
  apply flaky_count_is_flakyCount; assumption.
Qed.

Ltac distinct_attempts :=
  repeat (constructor; [cbn; intuition discriminate|]); constructor.

Ltac passed_last :=
  let r := fresh "r" in
  let r' := fresh "r'" in
  intros r r' Hr Hr' _ Hpassed; cbn in Hr, Hr';
  repeat (destruct Hr as [<-|Hr]; [|]); try contradiction;
  try discriminate Hpassed;
  repeat (destruct Hr' as [<-|Hr']; [cbn; lia|]); contradiction.

(** The first example of the specification: A fails, then passes on its
    first retry. *)
Lemma summary_flaky_counts_groups_witness :
  Summary.flaky
    (CustomReporter.make_summary
       {| CustomReporter.results :=
            [Sample.outcome "A" 0 Failed; Sample.outcome "A" 1 Passed];
          CustomReporter.startTime := Some 0;
          CustomReporter.config := Some Sample.config |}
       0 5 (Some RunPassed))
  = 1%nat
  /\ Summary.flaky
       (CustomReporter.make_summary
          {| CustomReporter.results :=
               [Sample.outcome "A" 0 Failed; Sample.outcome "A" 1 Passed];
             CustomReporter.startTime := Some 0;
             CustomReporter.config := Some Sample.config |}
          0 5 (Some RunPassed))
     = FlakySpec.flakyCount
         [Sample.outcome "A" 0 Failed; Sample.outcome "A" 1 Passed].
Proof.
  apply (summary_flaky_counts_groups
           {| CustomReporter.results :=
                [Sample.outcome "A" 0 Failed; Sample.outcome "A" 1 Passed];
              CustomReporter.startTime := Some 0;
              CustomReporter.config := Some Sample.config |}
           0 5 (Some RunPassed)).
  - distinct_attempts.
  - passed_last.
Defined.

(** The second example of the specification: B passes at once. *)
Example flaky_count_passed_at_once :
  CustomReporter.flaky_count [Sample.outcome "B" 0 Passed] = 0%nat
  /\ FlakySpec.flakyCount [Sample.outcome "B" 0 Passed] = 0%nat.
Proof. split; reflexivity. Qed.

(** C2 fails as stated: when A is run twice (the runner's repeat-each) and
    passes on its first retry both times, there is one group with title A,
    and the code counts two. *)
Lemma flaky_count_counts_outcomes_not_groups :
  CustomReporter.flaky_count
    [Sample.outcome "A" 0 Failed; Sample.outcome "A" 1 Passed;
     Sample.outcome "A" 0 Failed; Sample.outcome "A" 1 Passed]
  = 2%nat
  /\ FlakySpec.flakyCount
       [Sample.outcome "A" 0 Failed; Sample.outcome "A" 1 Passed;
        Sample.outcome "A" 0 Failed; Sample.outcome "A" 1 Passed]
     = 1%nat.
Proof. split; reflexivity. Qed.

(** *** The end of the run *)
Section OnEndFacts.
Context {H : Type}.
Variable host : Host H.
Variable status : option RunStatus.
Variable s : CustomReporter.State H.
Variables (start endTime : Z) (cfg : FullConfig) (h1 h2 : H).

Hypothesis Hstart : CustomReporter.startTime (CustomReporter.this s) = Some start.
Hypothesis Hcfg : CustomReporter.config (CustomReporter.this s) = Some cfg.
Hypothesis Hnow : Date_now host (CustomReporter.machine s) = (endTime, h1).

Let summary : Summary.t :=
  CustomReporter.make_summary (CustomReporter.this s) start endTime status.
Let reportPath : string :=
  path_join host [rootDir cfg; "reports"; "custom-report.json"].
Let summaryPath : string :=
  path_join host [rootDir cfg; "reports"; "summary.md"].
Let summaryMd : string :=
  CustomReporter.generateMarkdownSummary host (CustomReporter.this s) summary.

Hypothesis Hmkdir :
  fs_mkdir host (path_dirname host reportPath) h1 = (Normal tt, h2).

Ltac run_onEnd :=
  unfold CustomReporter.onEnd, bind, CustomReporter.new_Date,
    CustomReporter.get_this, CustomReporter.defined, CustomReporter.await_fs, ret;
  rewrite Hnow; cbn [CustomReporter.this CustomReporter.machine CustomReporter.console];
  rewrite Hstart, Hcfg;
  cbn [CustomReporter.this CustomReporter.machine CustomReporter.console];
  fold summary; fold reportPath; fold summaryPath; fold summaryMd;
  rewrite Hmkdir;
  cbn [CustomReporter.this CustomReporter.machine CustomReporter.console].

(** When the JSON report cannot be written, [onEnd] rejects there. *)
Lemma onEnd_rejects_at_report (e : IOError) (hf : H) :
  fs_writeFile host reportPath (JsonDocument summary) h2 = (Abrupt e, hf) ->
  CustomReporter.onEnd host status s
  = (Abrupt (Rejected e),
     {| CustomReporter.this := CustomReporter.this s;
        CustomReporter.machine := hf;
        CustomReporter.console := CustomReporter.console s |}).
Proof.
  intros Hwrite. run_onEnd. rewrite Hwrite. reflexivity.
Qed.

(** When the Markdown summary cannot be written, [onEnd] rejects there. *)
Lemma onEnd_rejects_at_summary (e : IOError) (h3 hf : H) :
  fs_writeFile host reportPath (JsonDocument summary) h2 = (Normal tt, h3) ->
  fs_writeFile host summaryPath (Text summaryMd) h3 = (Abrupt e, hf) ->
  CustomReporter.onEnd host status s
  = (Abrupt (Rejected e),
     {| CustomReporter.this := CustomReporter.this s;
        CustomReporter.machine := hf;
        CustomReporter.console := CustomReporter.console s |}).
Proof.
  intros Hjson Hwrite. run_onEnd. rewrite Hjson.
  cbn [CustomReporter.this CustomReporter.machine CustomReporter.console].
  rewrite Hwrite. reflexivity.
Qed.

(** The bordered block, as lines of the console. *)
Lemma console_summary_run (t : CustomReporter.State H) :
  CustomReporter.console_summary summary t
  = (Normal tt,
     {| CustomReporter.this := CustomReporter.this t;
        CustomReporter.machine := CustomReporter.machine t;
        CustomReporter.console :=
          (CustomReporter.console t
             ++ [ Log (nl ++ CustomReporter.border);
                  Log "Test Run Summary";
                  Log CustomReporter.border;
                  Log ("Total Tests: " ++ JsNumber.string_of_nat (Summary.totalTests summary));
                  Log ("✅ Passed: " ++ JsNumber.string_of_nat (Summary.passed summary));
                  Log ("❌ Failed: " ++ JsNumber.string_of_nat (Summary.failed summary));
                  Log ("⏭️  Skipped: " ++ JsNumber.string_of_nat (Summary.skipped summary));
                  Log ("🔄 Flaky: " ++ JsNumber.string_of_nat (Summary.flaky summary));
                  Log ("⏱️  Duration: "
                       ++ CustomReporter.seconds (Summary.duration summary) ++ "s");
                  Log CustomReporter.border ])%list |}).
Proof.
  unfold CustomReporter.console_summary, bind, CustomReporter.console_log.
  cbn [CustomReporter.this CustomReporter.machine CustomReporter.console].
  rewrite <- !app_assoc. reflexivity.
Qed.

(** Computations that only add lines to the console. *)
Definition only_logs (c : CustomReporter.Run H unit) : Prop :=
  forall t, exists rest,
    c t = (Normal tt,
           {| CustomReporter.this := CustomReporter.this t;
              CustomReporter.machine := CustomReporter.machine t;
              CustomReporter.console := (CustomReporter.console t ++ rest)%list |}).

Lemma only_logs_log (text : string) : only_logs (CustomReporter.console_log text).
Proof.
  intros t. exists [Log text]. reflexivity.
Qed.

Lemma only_logs_ret : only_logs (ret tt).
Proof.
  intros t. exists []. unfold ret. rewrite app_nil_r. destruct t; reflexivity.
Qed.

Lemma only_logs_bind (c k : CustomReporter.Run H unit) :
  only_logs c -> only_logs k -> only_logs (bind c (fun _ => k)).
Proof.
  intros Hc Hk t. destruct (Hc t) as [rest1 H1]. unfold bind. rewrite H1.
  destruct (Hk {| CustomReporter.this := CustomReporter.this t;
                  CustomReporter.machine := CustomReporter.machine t;
                  CustomReporter.console := (CustomReporter.console t ++ rest1)%list |})
    as [rest2 H2].
  rewrite H2. cbn [CustomReporter.this CustomReporter.machine CustomReporter.console].
  exists (rest1 ++ rest2)%list. rewrite app_assoc. reflexivity.
Qed.

Lemma only_logs_forEach {A} (l : list A) (body : A -> CustomReporter.Run H unit) :
  (forall x, only_logs (body x)) -> only_logs (CustomReporter.forEach l body).
Proof.
  intros Hbody. induction l as [|x l IH]; cbn [CustomReporter.forEach].
  - apply only_logs_ret.
  - apply only_logs_bind; [apply Hbody | exact IH].
Qed.

Lemma only_logs_failures (self : CustomReporter.t) :
  only_logs (CustomReporter.console_failures self).
Proof.
  unfold CustomReporter.console_failures.
  apply only_logs_bind; [apply only_logs_log|].
  apply only_logs_forEach. intros r.
  repeat (apply only_logs_bind; [apply only_logs_log|]). apply only_logs_log.
Qed.

(** When the directory and both files are written, [onEnd] fulfils and the
    bordered block is on the console. *)
Lemma onEnd_prints_summary (h3 h4 : H) :
  fs_writeFile host reportPath (JsonDocument summary) h2 = (Normal tt, h3) ->
  fs_writeFile host summaryPath (Text summaryMd) h3 = (Normal tt, h4) ->
  exists rest,
    CustomReporter.onEnd host status s
    = (Normal tt,
       {| CustomReporter.this := CustomReporter.this s;
          CustomReporter.machine := h4;
          CustomReporter.console :=
            (CustomReporter.console s
               ++ [ Log (nl ++ CustomReporter.border);
                    Log "Test Run Summary";
                    Log CustomReporter.border;
                    Log ("Total Tests: " ++ JsNumber.string_of_nat (Summary.totalTests summary));
                    Log ("✅ Passed: " ++ JsNumber.string_of_nat (Summary.passed summary));
                    Log ("❌ Failed: " ++ JsNumber.string_of_nat (Summary.failed summary));
                    Log ("⏭️  Skipped: " ++ JsNumber.string_of_nat (Summary.skipped summary));
                    Log ("🔄 Flaky: " ++ JsNumber.string_of_nat (Summary.flaky summary));
                    Log ("⏱️  Duration: "
                         ++ CustomReporter.seconds (Summary.duration summary) ++ "s");
                    Log CustomReporter.border ]
               ++ rest)%list |}).
Proof.
  intros Hjson Hmd. run_onEnd. rewrite Hjson.
  cbn [CustomReporter.this CustomReporter.machine CustomReporter.console].
  rewrite Hmd.
  cbn [CustomReporter.this CustomReporter.machine CustomReporter.console].
  rewrite console_summary_run.
  cbn [CustomReporter.this CustomReporter.machine CustomReporter.console].
  destruct (0 <? Summary.failed summary)%nat.
  - match goal with
    | |- context [CustomReporter.console_failures ?self ?t] =>
        destruct (only_logs_failures self t) as [rest Hrest]; rewrite Hrest
    end.
    cbn [CustomReporter.this CustomReporter.machine CustomReporter.console].
    exists rest. rewrite <- app_assoc. reflexivity.
  - exists []. unfold ret. rewrite !app_nil_r. reflexivity.
Qed.

(** C1, as the code has it: when the write of custom-report.json or of
    summary.md fails, [onEnd] does not catch the failure; it rejects with
    it, and the console is as it was: no warning and no summary block. *)
Theorem onEnd_rejects_when_a_write_fails (e : IOError) (hf : H) :
  fs_writeFile host reportPath (JsonDocument summary) h2 = (Abrupt e, hf)
  \/ (exists h3,
        fs_writeFile host reportPath (JsonDocument summary) h2 = (Normal tt, h3)
        /\ fs_writeFile host summaryPath (Text summaryMd) h3 = (Abrupt e, hf)) ->
  CustomReporter.onEnd host status s
  = (Abrupt (Rejected e),
     {| CustomReporter.this := CustomReporter.this s;
        CustomReporter.machine := hf;
        CustomReporter.console := CustomReporter.console s |}).
Proof.
  intros [Hjson | (h3 & Hjson & Hmd)].
  - apply onEnd_rejects_at_report, Hjson.
  - apply (onEnd_rejects_at_summary e h3 hf Hjson Hmd).
Qed.

End OnEndFacts.

Lemma onEnd_rejects_when_a_write_fails_witness :
  CustomReporter.onEnd Sample.posix (Some RunPassed) (Sample.beforeEnd false)
  = (Abrupt (Rejected "EACCES"),
     {| CustomReporter.this := CustomReporter.this (Sample.beforeEnd false);
        CustomReporter.machine := Sample.tick (Sample.tick (Sample.disk false));
        CustomReporter.console := CustomReporter.console (Sample.beforeEnd false) |}).
Proof.
  apply (onEnd_rejects_when_a_write_fails
           Sample.posix (Some RunPassed) (Sample.beforeEnd false)
           1700000000000 1700000001250 Sample.config
           (Sample.tick (Sample.tick (Sample.disk false)))
           (Sample.tick (Sample.tick (Sample.disk false)))).
  - reflexivity.
  - reflexivity.
  - reflexivity.
  - reflexivity.
  - left. reflexivity.
Defined.

(** C1 fails as stated: on a disk that rejects writes, [onEnd] rejects with
    EACCES; the console holds the two progress lines printed before, and
    neither a warning nor the summary block. *)
Lemma write_failure_suppresses_console_summary :
  fst (Sample.session (Sample.boot false)) = Abrupt (Rejected "EACCES")
  /\ CustomReporter.console (snd (Sample.session (Sample.boot false)))
     = [Log "Starting test run with 1 tests"; Log "✅ logs in (12ms)"].
Proof. split; reflexivity. Qed.

(** The same run on a writable disk prints the summary block. *)
Example session_prints_summary :
  fst (Sample.session (Sample.boot true)) = Normal tt
  /\ CustomReporter.console (snd (Sample.session (Sample.boot true)))
     = [ Log "Starting test run with 1 tests";
         Log "✅ logs in (12ms)";
         Log (nl ++ "==================================================");
         Log "Test Run Summary";
         Log "==================================================";
         Log "Total Tests: 1";
         Log "✅ Passed: 1";
         Log "❌ Failed: 0";
         Log "⏭️  Skipped: 0";
         Log "🔄 Flaky: 0";
         Log "⏱️  Duration: 1.25s";
         Log "==================================================" ].
Proof. split; vm_compute; reflexivity. Qed.

(** A run in which no test ended writes "NaN%" into summary.md. *)
Example emptySession_summary_rows :
  exists head tail,
    Sample.files (CustomReporter.machine (snd (Sample.emptySession (Sample.boot true))))
    = [ ("/work/reports/custom-report.json",
         JsonDocument
           {| Summary.startTime := "2023-11-14T22:13:20.000Z";
              Summary.endTime := "2023-11-14T22:13:21.250Z";
              Summary.duration := 1250;
              Summary.status := Some RunPassed;
              Summary.totalTests := 0;
              Summary.passed := 0;
              Summary.failed := 0;
              Summary.skipped := 0;
              Summary.flaky := 0;
              Summary.results := [] |});
        ("/work/reports/summary.md",
         Text (head
               ++ "| ✅ Passed | 0 | NaN% |" ++ nl
               ++ "| ❌ Failed | 0 | NaN% |" ++ nl
               ++ "| ⏭️ Skipped | 0 | NaN% |" ++ nl
               ++ "| 🔄 Flaky | 0 | NaN% |" ++ nl
               ++ tail)) ].
Proof.
  exists ("# Test Run Report" ++ nl ++ nl
          ++ "**Date**: 2023-11-14 22:13:20" ++ nl
          ++ "**Duration**: 1.25s" ++ nl
          ++ "**Status**: passed" ++ nl ++ nl
          ++ "## Summary" ++ nl ++ nl
          ++ "| Status | Count | Percentage |" ++ nl
          ++ "|--------|-------|------------|" ++ nl).
  exists (nl ++ "## Test Details" ++ nl ++ nl
          ++ "<details>" ++ nl
          ++ "<summary>Click to expand full test results</summary>" ++ nl ++ nl
          ++ "| Test | Status | Duration | Tags |" ++ nl
          ++ "|------|--------|----------|------|" ++ nl
          ++ nl ++ "</details>" ++ nl).
  vm_compute. reflexivity.
Qed.

(** * Further properties of the retry and poll helpers

    What the two loops do for every operation, with no assumption on how
    its attempts turn out. *)
Section AsyncCases.
Context {W E T : Type}.
Variable elapse : Z -> W -> W.
Variable operation : W -> completion E T * W.
Variables maxRetries delay : Z.

(** Among the first [n] attempts either there is a first one that does not
    throw, or all of them throw. *)
Lemma first_return_or_all_throw (n : nat) (w : W) :
  (exists k v, (k < n)%nat
               /\ throws_until elapse operation delay k w
               /\ attempt elapse operation delay k w = Normal v)
  \/ throws_until elapse operation delay n w.
Proof.
  induction n as [|n IH].
  - right. intros j Hj. lia.
  - destruct IH as [(k & v & Hk & Hthrows & Hv) | Hall].
    + left. exists k, v. repeat split; [lia | exact Hthrows | exact Hv].
    + destruct (attempt elapse operation delay n w) as [v|e] eqn:Hn.
      * left. exists n, v. repeat split; [lia | exact Hall | exact Hn].
      * right. intros j Hj. destruct (Nat.eq_dec j n) as [->|Hne].
        -- exists e. exact Hn.
        -- apply Hall. lia.
Qed.

(** How the retry loop ends, in all cases. *)
Lemma retry_ends (m : Machine W) :
  (maxRetries <= 0
   /\ retryOperation elapse operation maxRetries delay m = (Abrupt Undefined, m))
  \/ (exists k v,
        (k < Z.to_nat maxRetries)%nat
        /\ throws_until elapse operation delay k (world m)
        /\ attempt elapse operation delay k (world m) = Normal v
        /\ retryOperation elapse operation maxRetries delay m
           = (Normal v, after_attempts elapse operation delay k m))
  \/ (exists e,
        1 <= maxRetries
        /\ throws_until elapse operation delay (Z.to_nat maxRetries) (world m)
        /\ attempt elapse operation delay (Z.to_nat maxRetries - 1) (world m)
           = Abrupt e
        /\ retryOperation elapse operation maxRetries delay m
           = (Abrupt (Raised e),
              after_attempts elapse operation delay (Z.to_nat maxRetries - 1) m)).
Proof.
  destruct (Z.le_gt_cases maxRetries 0) as [Hle|Hgt].
  - left. split; [exact Hle|]. unfold retryOperation.
    rewrite retry_loop_not_entered by lia. reflexivity.
  - right.
    destruct (first_return_or_all_throw (Z.to_nat maxRetries) (world m))
      as [(k & v & Hk & Hthrows & Hv) | Hall].
    + left. exists k, v. repeat split; try assumption.
      unfold retryOperation. apply retry_loop_success; [lia | lia | exact Hthrows | exact Hv].
    + right. destruct (Hall (Z.to_nat maxRetries - 1)%nat ltac:(lia)) as [e He].
      exists e. repeat split; [lia | exact Hall | exact He |].
      unfold retryOperation. apply retry_loop_exhausted; [lia | lia | | exact He].
      intros j Hj. apply Hall. lia.
Qed.

(** X1: the three ways [retryOperation] can end.  With a budget of zero or
    less it throws [undefined] and does nothing else.  Otherwise it either
    returns the result of the first attempt that did not throw, or, when
    all [maxRetries] attempts threw, throws what the last one threw. *)
Theorem retryOperation_cases (m : Machine W) :
  (maxRetries <= 0
   /\ retryOperation elapse operation maxRetries delay m = (Abrupt Undefined, m))
  \/ (exists k v,
        (k < Z.to_nat maxRetries)%nat
        /\ throws_until elapse operation delay k (world m)
        /\ attempt elapse operation delay k (world m) = Normal v
        /\ retryOperation elapse operation maxRetries delay m
           = (Normal v, after_attempts elapse operation delay k m))
  \/ (exists e,
        1 <= maxRetries
        /\ throws_until elapse operation delay (Z.to_nat maxRetries) (world m)
        /\ attempt elapse operation delay (Z.to_nat maxRetries - 1) (world m)
           = Abrupt e
        /\ retryOperation elapse operation maxRetries delay m
           = (Abrupt (Raised e),
              after_attempts elapse operation delay (Z.to_nat maxRetries - 1) m)).
Proof.
  exact (retry_ends m).
Qed.

(** X2: whatever the operation does, [retryOperation] invokes it at most
    [maxRetries] times (not at all for a budget of zero or less), waits
    [delay] between two invocations and never after the last one. *)
Theorem retryOperation_invocation_bound (m : Machine W) :
  let m' := snd (retryOperation elapse operation maxRetries delay m) in
  (invocations (trace m') <= invocations (trace m) + Z.to_nat maxRetries)%nat
  /\ (trace m' = trace m
      \/ exists k, (k < Z.to_nat maxRetries)%nat
                   /\ trace m' = (trace m ++ rounds delay k ++ [Invoke])%list).
Proof.
  cbv zeta.
  destruct (retry_ends m)
    as [[_ ->] | [(k & v & Hk & _ & _ & ->) | (e & Hmax & _ & _ & ->)]];
    cbn [snd].
  - split; [lia | left; reflexivity].
  - rewrite invocations_after_attempts. split; [lia|].
    right. exists k. split; [exact Hk | reflexivity].
  - rewrite invocations_after_attempts. split; [lia|].
    right. exists (Z.to_nat maxRetries - 1)%nat. split; [lia | reflexivity].
Qed.


(** X4: a result [retryOperation] returned within some budget is returned,
    with the same invocations and waits, within every larger budget. *)
Theorem retryOperation_budget_monotone (m m' : Machine W) (v : T) (larger : Z) :
  retryOperation elapse operation maxRetries delay m = (Normal v, m') ->
  maxRetries <= larger ->
  retryOperation elapse operation larger delay m = (Normal v, m').
Proof.
  intros Hrun Hle.
  destruct (retry_ends m)
    as [[_ Heq] | [(k & v' & Hk & Hthrows & Hv & Heq) | (e & _ & _ & _ & Heq)]];
    rewrite Heq in Hrun; try discriminate Hrun.
  injection Hrun as <- <-.
  unfold retryOperation. apply retry_loop_success; [lia | lia | exact Hthrows | exact Hv].
Qed.

Variable condition : T -> bool.

(** Among the first [n] attempts either there is a first one that meets
    the condition or throws, or all of them return without meeting it. *)
Lemma first_match_or_throw_or_unmet (n : nat) (w : W) :
  (exists k, (k < n)%nat
             /\ unmet_until elapse operation condition delay k w
             /\ ((exists v, attempt elapse operation delay k w = Normal v
                            /\ condition v = true)
                 \/ (exists e, attempt elapse operation delay k w = Abrupt e)))
  \/ unmet_until elapse operation condition delay n w.
Proof.
  induction n as [|n IH].
  - right. intros j Hj. lia.
  - destruct IH as [(k & Hk & Hunmet & Hend) | Hall].
    + left. exists k. repeat split; [lia | exact Hunmet | exact Hend].
    + destruct (attempt elapse operation delay n w) as [v|e] eqn:Hn.
      * destruct (condition v) eqn:Hc.
        -- left. exists n. repeat split; [lia | exact Hall |].
           left. exists v. split; [exact Hn | exact Hc].
        -- right. intros j Hj. destruct (Nat.eq_dec j n) as [->|Hne].
           ++ exists v. split; [exact Hn | exact Hc].
           ++ apply Hall. lia.
      * left. exists n. repeat split; [lia | exact Hall |].
        right. exists e. exact Hn.
Qed.

(** How the poll loop ends, in all cases. *)
Lemma wait_ends (m : Machine W) :
  (exists k v,
      (k < Z.to_nat maxRetries)%nat
      /\ unmet_until elapse operation condition delay k (world m)
      /\ attempt elapse operation delay k (world m) = Normal v
      /\ condition v = true
      /\ waitForAPIResponse elapse operation condition maxRetries delay m
         = (Normal v, after_attempts elapse operation delay k m))
  \/ (exists k e,
        (k < Z.to_nat maxRetries)%nat
        /\ unmet_until elapse operation condition delay k (world m)
        /\ attempt elapse operation delay k (world m) = Abrupt e
        /\ waitForAPIResponse elapse operation condition maxRetries delay m
           = (Abrupt (Raised e), after_attempts elapse operation delay k m))
  \/ (unmet_until elapse operation condition delay (Z.to_nat maxRetries) (world m)
      /\ waitForAPIResponse elapse operation condition maxRetries delay m
         = (Abrupt (NewError condition_not_met),
            match Z.to_nat maxRetries with
            | O => m
            | S n => after_attempts elapse operation delay n m
            end)).
Proof.
  destruct (first_match_or_throw_or_unmet (Z.to_nat maxRetries) (world m))
    as [(k & Hk & Hunmet & [(v & Hv & Hc) | (e & He)]) | Hall].
  - left. exists k, v. repeat split; try assumption.
    unfold waitForAPIResponse.
    apply wait_loop_success; [lia | lia | exact Hunmet | exact Hv | exact Hc].
  - right. left. exists k, e. repeat split; try assumption.
    unfold waitForAPIResponse.
    apply wait_loop_failure; [lia | lia | exact Hunmet | exact He].
  - right. right. split; [exact Hall|]. unfold waitForAPIResponse.
    destruct (Z.to_nat maxRetries) as [|n] eqn:Hn.
    + apply wait_loop_not_entered. lia.
    + apply wait_loop_exhausted; [lia | lia | exact Hall].
Qed.

(** X5: the three ways [waitForAPIResponse] can end: it returns the first
    result that meets the condition, or throws what the operation threw on
    the first attempt that threw, or, when none of the results of the whole
    budget meets the condition, throws the "condition not met" error. *)
Theorem waitForAPIResponse_cases (m : Machine W) :
  (exists k v,
      (k < Z.to_nat maxRetries)%nat
      /\ unmet_until elapse operation condition delay k (world m)
      /\ attempt elapse operation delay k (world m) = Normal v
      /\ condition v = true
      /\ waitForAPIResponse elapse operation condition maxRetries delay m
         = (Normal v, after_attempts elapse operation delay k m))
  \/ (exists k e,
        (k < Z.to_nat maxRetries)%nat
        /\ unmet_until elapse operation condition delay k (world m)
        /\ attempt elapse operation delay k (world m) = Abrupt e
        /\ waitForAPIResponse elapse operation condition maxRetries delay m
           = (Abrupt (Raised e), after_attempts elapse operation delay k m))
  \/ (unmet_until elapse operation condition delay (Z.to_nat maxRetries) (world m)
      /\ waitForAPIResponse elapse operation condition maxRetries delay m
         = (Abrupt (NewError condition_not_met),
            match Z.to_nat maxRetries with
            | O => m
            | S n => after_attempts elapse operation delay n m
            end)).
Proof.
  exact (wait_ends m).
Qed.

(** X6: [waitForAPIResponse] never returns a response that fails the
    condition. *)
Theorem waitForAPIResponse_result_meets_condition (m : Machine W) (v : T) :
  fst (waitForAPIResponse elapse operation condition maxRetries delay m) = Normal v ->
  condition v = true.
Proof.
  destruct (wait_ends m)
    as [(k & v' & _ & _ & _ & Hc & ->) | [(k & e & _ & _ & _ & ->) | (_ & ->)]];
    cbn [fst]; intros Hv; try discriminate Hv.
  injection Hv as <-. exact Hc.
Qed.

(** X7: whatever the operation does, [waitForAPIResponse] invokes it at
    most [maxRetries] times, waits [delay] between two invocations and
    never after the last one. *)
Theorem waitForAPIResponse_invocation_bound (m : Machine W) :
  let m' := snd (waitForAPIResponse elapse operation condition maxRetries delay m) in
  (invocations (trace m') <= invocations (trace m) + Z.to_nat maxRetries)%nat
  /\ (trace m' = trace m
      \/ exists k, (k < Z.to_nat maxRetries)%nat
                   /\ trace m' = (trace m ++ rounds delay k ++ [Invoke])%list).
Proof.
  cbv zeta.
  destruct (wait_ends m)
    as [(k & v & Hk & _ & _ & _ & ->) | [(k & e & Hk & _ & _ & ->) | (_ & ->)]];
    cbn [snd].
  - rewrite invocations_after_attempts. split; [lia|].
    right. exists k. split; [exact Hk | reflexivity].
  - rewrite invocations_after_attempts. split; [lia|].
    right. exists k. split; [exact Hk | reflexivity].
  - destruct (Z.to_nat maxRetries) as [|n].
    + split; [lia | left; reflexivity].
    + rewrite invocations_after_attempts. split; [lia|].
      right. exists n. split; [lia | reflexivity].
Qed.

(** X8: a poll that returned, or whose operation threw, within some budget
    ends the same way within every larger budget. *)
Theorem waitForAPIResponse_budget_monotone
        (m m' : Machine W) (r : completion (Thrown E) T) (larger : Z) :
  waitForAPIResponse elapse operation condition maxRetries delay m = (r, m') ->
  r <> Abrupt (NewError condition_not_met) ->
  maxRetries <= larger ->
  waitForAPIResponse elapse operation condition larger delay m = (r, m').
Proof.
  intros Hrun Hr Hle.
  destruct (wait_ends m)
    as [(k & v & Hk & Hunmet & Hv & Hc & Heq)
       | [(k & e & Hk & Hunmet & He & Heq) | (_ & Heq)]];
    rewrite Heq in Hrun; injection Hrun as <- <-.
  - unfold waitForAPIResponse.
    apply wait_loop_success; [lia | lia | exact Hunmet | exact Hv | exact Hc].
  - unfold waitForAPIResponse.
    apply wait_loop_failure; [lia | lia | exact Hunmet | exact He].
  - contradiction Hr. reflexivity.
Qed.

End AsyncCases.


(** Two failures, then a result: the budget of three is enough, and so is
    a budget of ten. *)
Lemma retryOperation_budget_monotone_witness :
  retryOperation Sample.idle (Sample.flakyOp 2) 10 0 Sample.start
  = (Normal 2%nat, mkMachine 3%nat [Invoke; Sleep 0; Invoke; Sleep 0; Invoke]).
Proof.
  apply (retryOperation_budget_monotone
           Sample.idle (Sample.flakyOp 2) 3 0 Sample.start).
  - reflexivity.
  - lia.
Defined.

Lemma waitForAPIResponse_result_meets_condition_witness :
  (3 <=? 3)%nat = true.
Proof.
  apply (waitForAPIResponse_result_meets_condition
           Sample.idle Sample.countingOp 5 0 (fun r => 3 <=? r)%nat
           Sample.start 3%nat).
  reflexivity.
Defined.

(** The operation throws on its second attempt: a budget of five or of
    fifty, the poll ends there. *)
Lemma waitForAPIResponse_budget_monotone_witness :
  waitForAPIResponse Sample.idle Sample.throwsSecond (fun _ => false) 50 0
    Sample.start
  = (Abrupt (Raised 1%nat), mkMachine 2%nat [Invoke; Sleep 0; Invoke]).
Proof.
  apply (waitForAPIResponse_budget_monotone
           Sample.idle Sample.throwsSecond 5 0 (fun _ => false) Sample.start).
  - reflexivity.
  - discriminate.
  - lia.
Defined.

(** * Further properties of the reporter *)

(** ** The derived counts *)

Lemma filter_length_le {A} (p q : A -> bool) (l : list A) :
  (forall x, p x = true -> q x = true) ->
  (List.length (filter p l) <= List.length (filter q l))%nat.
Proof.
  intros Hpq. induction l as [|a l IH]; cbn; [lia|].
  destruct (p a) eqn:Hp.
  - rewrite (Hpq a Hp). cbn. lia.
  - destruct (q a); cbn; lia.
Qed.

Lemma count_status_total (rs : list Recorded.t) :
  (CustomReporter.count_status "passed" rs
   + CustomReporter.count_status "failed" rs
   + CustomReporter.count_status "skipped" rs
   + CustomReporter.count_status "timedOut" rs
   + CustomReporter.count_status "interrupted" rs
   = List.length rs)%nat.
Proof.
  unfold CustomReporter.count_status.
  induction rs as [|r rs IH]; [reflexivity|].
  cbn [filter List.length]. destruct (Recorded.status r); cbn; lia.
Qed.

(** X9: every recorded outcome is counted in [totalTests] and in exactly
    one of passed, failed, skipped, timed out and interrupted; the summary
    reports the first three only, so [passed + failed + skipped] falls
    short of [totalTests] by the timed-out and interrupted outcomes.  The
    flaky outcomes are among the passed ones. *)
Theorem summary_counts_partition (self : CustomReporter.t) (start endTime : Z)
        (status : option RunStatus) :
  let summary := CustomReporter.make_summary self start endTime status in
  (Summary.passed summary + Summary.failed summary + Summary.skipped summary
   + CustomReporter.count_status "timedOut" (CustomReporter.results self)
   + CustomReporter.count_status "interrupted" (CustomReporter.results self)
   = Summary.totalTests summary)%nat
  /\ (Summary.flaky summary <= Summary.passed summary)%nat.
Proof.
  cbv zeta. cbn [CustomReporter.make_summary Summary.passed Summary.failed
    Summary.skipped Summary.totalTests Summary.flaky].
  split; [apply count_status_total|].
  apply filter_length_le. intros r Hr.
  unfold CustomReporter.is_flaky in Hr. apply andb_true_iff in Hr as [_ Hr].
  exact Hr.
Qed.

(** ** Recording outcomes *)

(** What a sequence of [onTestEnd] calls leaves behind. *)
Lemma forEach_onTestEnd_run {H : Type}
        (ends : list (TestCase.t * TestResult.t)) (s : CustomReporter.State H) :
  exists lines,
    CustomReporter.forEach ends
      (fun call => CustomReporter.onTestEnd (fst call) (snd call)) s
    = (Normal tt,
       {| CustomReporter.this :=
            {| CustomReporter.results :=
                 (CustomReporter.results (CustomReporter.this s)
                    ++ map (fun call => CustomReporter.testResult (fst call) (snd call))
                           ends)%list;
               CustomReporter.startTime :=
                 CustomReporter.startTime (CustomReporter.this s);
               CustomReporter.config :=
                 CustomReporter.config (CustomReporter.this s) |};
          CustomReporter.machine := CustomReporter.machine s;
          CustomReporter.console := (CustomReporter.console s ++ lines)%list |}).
Proof.
  revert s. induction ends as [|[test result] ends IH]; intros s.
  - exists []. cbn. rewrite !app_nil_r. destruct s as [[rs st cfg] h c]. reflexivity.
  - cbn [CustomReporter.forEach fst snd]. unfold bind at 1.
    rewrite onTestEnd_run.
    match goal with
    | |- context [CustomReporter.forEach ends _ ?s1] =>
        destruct (IH s1) as [lines Hlines]; rewrite Hlines
    end.
    cbn [CustomReporter.this CustomReporter.machine CustomReporter.console
         CustomReporter.results CustomReporter.startTime CustomReporter.config map
         fst snd].
    eexists. rewrite <- !app_assoc. cbn [app]. reflexivity.
Qed.

(** X10: [onTestEnd] never throws and never drops or merges an outcome:
    after it was called for a sequence of attempts, [this.results] is what
    it was followed by one record per call, in the order of the calls;
    the other fields and the machine are untouched and the console has
    only grown. *)
Theorem onTestEnd_appends_in_order {H : Type}
        (ends : list (TestCase.t * TestResult.t)) (s : CustomReporter.State H) :
  exists lines,
    CustomReporter.forEach ends
      (fun call => CustomReporter.onTestEnd (fst call) (snd call)) s
    = (Normal tt,
       {| CustomReporter.this :=
            {| CustomReporter.results :=
                 (CustomReporter.results (CustomReporter.this s)
                    ++ map (fun call => CustomReporter.testResult (fst call) (snd call))
                           ends)%list;
               CustomReporter.startTime :=
                 CustomReporter.startTime (CustomReporter.this s);
               CustomReporter.config :=
                 CustomReporter.config (CustomReporter.this s) |};
          CustomReporter.machine := CustomReporter.machine s;
          CustomReporter.console := (CustomReporter.console s ++ lines)%list |}).
Proof.
  exact (forEach_onTestEnd_run ends s).
Qed.

(** ** The end of the run, on every host *)
Section OnEndAlways.
Context {H : Type}.
Variable host : Host H.
Variable status : option RunStatus.
Variable s : CustomReporter.State H.

Lemma only_logs_summary (summary : Summary.t) :
  only_logs (H:=H) (CustomReporter.console_summary summary).
Proof.
  unfold CustomReporter.console_summary.
  repeat (apply only_logs_bind; [apply only_logs_log|]). apply only_logs_log.
Qed.

(** X11: [onEnd] on a reporter whose [onBegin] was never called (its
    [startTime] or [config] is still undefined) throws a TypeError after
    reading the clock: no directory is made, no file written and nothing
    printed. *)
Theorem onEnd_before_onBegin_throws :
  CustomReporter.startTime (CustomReporter.this s) = None
  \/ CustomReporter.config (CustomReporter.this s) = None ->
  CustomReporter.onEnd host status s
  = (Abrupt TypeError,
     {| CustomReporter.this := CustomReporter.this s;
        CustomReporter.machine := snd (Date_now host (CustomReporter.machine s));
        CustomReporter.console := CustomReporter.console s |}).
Proof.
  intros Hundefined.
  unfold CustomReporter.onEnd, bind, CustomReporter.new_Date,
    CustomReporter.get_this, CustomReporter.defined, ret, throw.
  destruct (Date_now host (CustomReporter.machine s)) as [endTime h1].
  cbn [CustomReporter.this CustomReporter.machine CustomReporter.console snd].
  destruct (CustomReporter.startTime (CustomReporter.this s)) as [start|];
    [|reflexivity].
  destruct Hundefined as [Hstart | Hcfg]; [discriminate Hstart|].
  rewrite Hcfg. reflexivity.
Qed.

(** What [onEnd] leaves untouched, and what it prints. *)
Lemma onEnd_frame :
  let run := CustomReporter.onEnd host status s in
  CustomReporter.this (snd run) = CustomReporter.this s
  /\ ((fst run = Normal tt
       /\ exists rest,
            CustomReporter.console (snd run)
            = (CustomReporter.console s
                 ++ Log (nl ++ CustomReporter.border)
                 :: Log "Test Run Summary"
                 :: Log CustomReporter.border
                 :: rest)%list)
      \/ (exists x, fst run = Abrupt x
                    /\ CustomReporter.console (snd run) = CustomReporter.console s)).
Proof.
  cbv zeta.
  unfold CustomReporter.onEnd, bind, CustomReporter.new_Date,
    CustomReporter.get_this, CustomReporter.defined, CustomReporter.await_fs,
    ret, throw.
  destruct (Date_now host (CustomReporter.machine s)) as [endTime h1].
  cbn [CustomReporter.this CustomReporter.machine CustomReporter.console].
  destruct (CustomReporter.startTime (CustomReporter.this s)) as [start|];
    [|split; [reflexivity | right; eexists; split; reflexivity]].
  destruct (CustomReporter.config (CustomReporter.this s)) as [cfg|];
    [|split; [reflexivity | right; eexists; split; reflexivity]].
  cbn [CustomReporter.this CustomReporter.machine CustomReporter.console].
  destruct (fs_mkdir host _ h1) as [[[]|e] h2];
    [|split; [reflexivity | right; eexists; split; reflexivity]].
  cbn [CustomReporter.this CustomReporter.machine CustomReporter.console].
  destruct (fs_writeFile host _ (JsonDocument _) h2) as [[[]|e] h3];
    [|split; [reflexivity | right; eexists; split; reflexivity]].
  cbn [CustomReporter.this CustomReporter.machine CustomReporter.console].
  destruct (fs_writeFile host _ (Text _) h3) as [[[]|e] h4];
    [|split; [reflexivity | right; eexists; split; reflexivity]].
  cbn [CustomReporter.this CustomReporter.machine CustomReporter.console].
  rewrite (console_summary_run status s start endTime).
  cbn [CustomReporter.this CustomReporter.machine CustomReporter.console].
  destruct (0 <? _)%nat.
  - match goal with
    | |- context [CustomReporter.console_failures ?self ?t] =>
        destruct (only_logs_failures self t) as [rest Hrest]; rewrite Hrest
    end.
    cbn [fst snd CustomReporter.this CustomReporter.machine CustomReporter.console].
    split; [reflexivity | left]. split; [reflexivity|].
    eexists. rewrite <- app_assoc. cbn [app]. reflexivity.
  - cbn [fst snd CustomReporter.this CustomReporter.console].
    split; [reflexivity | left]. split; [reflexivity|].
    eexists. cbn [app]. reflexivity.
Qed.


End OnEndAlways.

Lemma onEnd_before_onBegin_throws_witness :
  CustomReporter.onEnd Sample.posix None (Sample.boot true)
  = (Abrupt TypeError,
     {| CustomReporter.this := CustomReporter.create;
        CustomReporter.machine := Sample.tick (Sample.disk true);
        CustomReporter.console := [] |}).
Proof.
  apply (onEnd_before_onBegin_throws Sample.posix None (Sample.boot true)).
  left. reflexivity.
Defined.

(** ** The end of the run, step by step *)
Section OnEndSteps.
Context {H : Type}.
Variable host : Host H.
Variable status : option RunStatus.
Variable s : CustomReporter.State H.
Variables (start endTime : Z) (cfg : FullConfig) (h1 : H).

Hypothesis Hstart : CustomReporter.startTime (CustomReporter.this s) = Some start.
Hypothesis Hcfg : CustomReporter.config (CustomReporter.this s) = Some cfg.
Hypothesis Hnow : Date_now host (CustomReporter.machine s) = (endTime, h1).

Ltac start_onEnd :=
  unfold CustomReporter.onEnd, bind, CustomReporter.new_Date,
    CustomReporter.get_this, CustomReporter.defined, CustomReporter.await_fs, ret;
  rewrite Hnow; cbn [CustomReporter.this CustomReporter.machine CustomReporter.console];
  rewrite Hstart, Hcfg;
  cbn [CustomReporter.this CustomReporter.machine CustomReporter.console].

(** X13: when the reports directory cannot be made, [onEnd] rejects with
    that failure before any file is written and prints nothing. *)
Theorem onEnd_rejects_when_mkdir_fails (e : IOError) (hf : H) :
  fs_mkdir host
    (path_dirname host
       (path_join host [rootDir cfg; "reports"; "custom-report.json"])) h1
  = (Abrupt e, hf) ->
  CustomReporter.onEnd host status s
  = (Abrupt (Rejected e),
     {| CustomReporter.this := CustomReporter.this s;
        CustomReporter.machine := hf;
        CustomReporter.console := CustomReporter.console s |}).
Proof.
  intros Hmkdir. start_onEnd. rewrite Hmkdir. reflexivity.
Qed.

(** What [forEach] prints for the failures. *)
Lemma console_failures_lines (self : CustomReporter.t) (t : CustomReporter.State H) :
  CustomReporter.console_failures self t
  = (Normal tt,
     {| CustomReporter.this := CustomReporter.this t;
        CustomReporter.machine := CustomReporter.machine t;
        CustomReporter.console :=
          (CustomReporter.console t
             ++ Log (nl ++ "Failed Tests:")
             :: flat_map failure_lines
                  (filter (fun r => status_is (Recorded.status r) "failed")
                          (CustomReporter.results self)))%list |}).
Proof.
  unfold CustomReporter.console_failures.
  unfold bind at 1. unfold CustomReporter.console_log at 1.
  cbn [CustomReporter.this CustomReporter.machine CustomReporter.console].
  generalize (filter (fun r => status_is (Recorded.status r) "failed")
                     (CustomReporter.results self)).
  intros failures.
  change (CustomReporter.console t ++ Log (nl ++ "Failed Tests:")
            :: flat_map failure_lines failures)%list
    with (CustomReporter.console t
            ++ [Log (nl ++ "Failed Tests:")] ++ flat_map failure_lines failures)%list.
  rewrite app_assoc.
  generalize (CustomReporter.console t ++ [Log (nl ++ "Failed Tests:")])%list.
  induction failures as [|r failures IH]; intros c.
  - cbn. rewrite app_nil_r. reflexivity.
  - cbn [CustomReporter.forEach flat_map]. unfold bind at 1.
    unfold bind, CustomReporter.console_log at 1 2 3.
    cbn [CustomReporter.this CustomReporter.machine CustomReporter.console].
    rewrite IH. unfold failure_lines. rewrite <- !app_assoc. reflexivity.
Qed.

(** X14: when the directory is made and both files are written, [onEnd]
    fulfils; custom-report.json was written first, with the summary as its
    document, then summary.md with the Markdown text; the console has grown
    by exactly the ten lines of the bordered block and, only when an
    outcome failed, by the heading "Failed Tests:" and three lines for each
    failed outcome, in the order they were recorded. *)
Theorem onEnd_writes_then_prints (h2 h3 h4 : H) :
  let summary :=
    CustomReporter.make_summary (CustomReporter.this s) start endTime status in
  let reportPath := path_join host [rootDir cfg; "reports"; "custom-report.json"] in
  let summaryPath := path_join host [rootDir cfg; "reports"; "summary.md"] in
  fs_mkdir host (path_dirname host reportPath) h1 = (Normal tt, h2) ->
  fs_writeFile host reportPath (JsonDocument summary) h2 = (Normal tt, h3) ->
  fs_writeFile host summaryPath
    (Text (CustomReporter.generateMarkdownSummary host (CustomReporter.this s) summary))
    h3
  = (Normal tt, h4) ->
  CustomReporter.onEnd host status s
  = (Normal tt,
     {| CustomReporter.this := CustomReporter.this s;
        CustomReporter.machine := h4;
        CustomReporter.console :=
          (CustomReporter.console s
             ++ [ Log (nl ++ CustomReporter.border);
                  Log "Test Run Summary";
                  Log CustomReporter.border;
                  Log ("Total Tests: "
                       ++ JsNumber.string_of_nat (Summary.totalTests summary));
                  Log ("✅ Passed: " ++ JsNumber.string_of_nat (Summary.passed summary));
                  Log ("❌ Failed: " ++ JsNumber.string_of_nat (Summary.failed summary));
                  Log ("⏭️  Skipped: "
                       ++ JsNumber.string_of_nat (Summary.skipped summary));
                  Log ("🔄 Flaky: " ++ JsNumber.string_of_nat (Summary.flaky summary));
                  Log ("⏱️  Duration: "
                       ++ CustomReporter.seconds (Summary.duration summary) ++ "s");
                  Log CustomReporter.border ]
             ++ (if (0 <? Summary.failed summary)%nat
                 then Log (nl ++ "Failed Tests:")
                      :: flat_map failure_lines
                           (filter (fun r => status_is (Recorded.status r) "failed")
                                   (CustomReporter.results (CustomReporter.this s)))
                 else []))%list |}).
Proof.
  intros summary reportPath summaryPath Hmkdir Hjson Hmd.
  start_onEnd. fold summary reportPath summaryPath.
  rewrite Hmkdir.
  cbn [CustomReporter.this CustomReporter.machine CustomReporter.console].
  rewrite Hjson.
  cbn [CustomReporter.this CustomReporter.machine CustomReporter.console].
  rewrite Hmd.
  cbn [CustomReporter.this CustomReporter.machine CustomReporter.console].
  subst summary. rewrite (console_summary_run status s start endTime).
  cbn [CustomReporter.this CustomReporter.machine CustomReporter.console].
  destruct (0 <? _)%nat.
  - rewrite console_failures_lines.
    cbn [CustomReporter.this CustomReporter.machine CustomReporter.console].
    rewrite <- app_assoc. reflexivity.
  - unfold ret. rewrite app_nil_r. reflexivity.
Qed.

End OnEndSteps.

Lemma onEnd_rejects_when_mkdir_fails_witness :
  CustomReporter.onEnd Sample2.noDirectory (Some RunPassed) (Sample.beforeEnd false)
  = (Abrupt (Rejected "EACCES"),
     {| CustomReporter.this := CustomReporter.this (Sample.beforeEnd false);
        CustomReporter.machine := Sample.tick (Sample.tick (Sample.disk false));
        CustomReporter.console := CustomReporter.console (Sample.beforeEnd false) |}).
Proof.
  apply (onEnd_rejects_when_mkdir_fails
           Sample2.noDirectory (Some RunPassed) (Sample.beforeEnd false)
           1700000000000 1700000001250 Sample.config
           (Sample.tick (Sample.tick (Sample.disk false)))).
  - reflexivity.
  - reflexivity.
  - reflexivity.
  - reflexivity.
Defined.

(** One failed test on a writable disk. *)
Lemma onEnd_writes_then_prints_witness :
  CustomReporter.console
    (snd (CustomReporter.onEnd Sample.posix (Some RunFailed)
            (Sample2.afterFailure true)))
  = [ Log "Starting test run with 1 tests";
      Log "❌ pays (3012ms)";
      Err "   Timeout 3000ms exceeded";
      Log (nl ++ "==================================================");
      Log "Test Run Summary";
      Log "==================================================";
      Log "Total Tests: 1";
      Log "✅ Passed: 0";
      Log "❌ Failed: 1";
      Log "⏭️  Skipped: 0";
      Log "🔄 Flaky: 0";
      Log "⏱️  Duration: 1.25s";
      Log "==================================================";
      Log (nl ++ "Failed Tests:");
      Log "  ❌  > chromium > login.spec.ts > pays";
      Log "     Timeout 3000ms exceeded";
      Log "     at /work/tests/login.spec.ts:7" ].
Proof.
  pose proof (onEnd_writes_then_prints
                Sample.posix (Some RunFailed) (Sample2.afterFailure true)
                1700000000000 1700000001250 Sample.config
                (Sample.tick (Sample.tick (Sample.disk true)))
                eq_refl eq_refl eq_refl) as Hrun.
  cbv zeta in Hrun. erewrite Hrun; [| reflexivity | reflexivity | reflexivity].
  vm_compute. reflexivity.
Defined.

(** ** The Markdown summary, further *)

Lemma count_status_positive (name : string) (rs : list Recorded.t) (r : Recorded.t) :
  In r rs ->
  status_is (Recorded.status r) name = true ->
  (0 <? CustomReporter.count_status name rs)%nat = true.
Proof.
  intros Hin Hr. apply Nat.ltb_lt. unfold CustomReporter.count_status.
  assert (Hf : In r (filter (fun r => status_is (Recorded.status r) name) rs))
    by (apply filter_In; auto).
  destruct (filter _ rs); [contradiction | cbn; lia].
Qed.

Lemma occurs_inside (piece pre post rest : string) :
  occurs_in piece (pre ++ (piece ++ post) ++ rest).
Proof.
  exists pre, (post ++ rest). rewrite append_assoc. reflexivity.
Qed.

Lemma occurs_prefix_of (piece tail md : string) :
  occurs_in (piece ++ tail) md -> occurs_in piece md.
Proof.
  intros (pre & post & ->). exists pre, (tail ++ post).
  rewrite append_assoc. reflexivity.
Qed.

Lemma append_each_concat {A} (f : A -> string) (l : list A) : forall md,
  CustomReporter.append_each f l md = md ++ concat_all (map f l).
Proof.
  unfold CustomReporter.append_each, concat_all.
  induction l as [|a l IH]; intros md; cbn [fold_left map fold_right].
  - symmetry. apply append_empty_r.
  - rewrite IH, append_assoc. reflexivity.
Qed.

(** X15: when the summary is the one [onEnd] builds, summary.md has the
    "Failed Tests" heading as soon as one recorded outcome failed, and
    under it, for every failed outcome, its title, file and line, and
    error message. *)
Theorem failed_outcome_is_listed {H : Type} (host : Host H)
        (self : CustomReporter.t) (start endTime : Z) (status : option RunStatus)
        (r : Recorded.t) :
  In r (CustomReporter.results self) ->
  Recorded.status r = Failed ->
  let md := CustomReporter.generateMarkdownSummary host self
              (CustomReporter.make_summary self start endTime status) in
  occurs_in ("## Failed Tests" ++ nl) md
  /\ occurs_in ("### ❌ " ++ Recorded.title r ++ nl
                ++ "- **File**: " ++ Recorded.file r ++ ":"
                ++ JsNumber.string_of_nat (Recorded.line r) ++ nl
                ++ "- **Error**: " ++ show_optional (Recorded.error r) ++ nl)
               md.
Proof.
  intros Hin Hfailed md. subst md.
  assert (Hr : status_is (Recorded.status r) "failed" = true)
    by (rewrite Hfailed; reflexivity).
  unfold CustomReporter.generateMarkdownSummary. cbv zeta.
  cbn [CustomReporter.make_summary Summary.failed].
  rewrite (count_status_positive "failed" _ r Hin Hr).
  split; apply occurs_append_r, occurs_append_each;
    do 4 apply occurs_append_r.
  - apply occurs_append_each.
    match goal with
    | |- occurs_in _ (?pre ++ nl ++ "## Failed Tests" ++ nl ++ nl) =>
        exists (pre ++ nl), nl
    end.
    rewrite !append_assoc. reflexivity.
  - assert (Hentry : exists tail,
               CustomReporter.failed_entry r
               = ("### ❌ " ++ Recorded.title r ++ nl
                  ++ "- **File**: " ++ Recorded.file r ++ ":"
                  ++ JsNumber.string_of_nat (Recorded.line r) ++ nl
                  ++ "- **Error**: " ++ show_optional (Recorded.error r) ++ nl)
                 ++ tail).
    { unfold CustomReporter.failed_entry. cbv zeta.
      destruct (0 <? _)%nat; eexists; rewrite !append_assoc; reflexivity. }
    destruct Hentry as [tail Hentry].
    apply (occurs_prefix_of _ tail). rewrite <- Hentry.
    apply occurs_append_each_member, filter_In. split; [exact Hin | exact Hr].
Qed.

Lemma failed_outcome_is_listed_witness :
  occurs_in ("## Failed Tests" ++ nl)
    (CustomReporter.generateMarkdownSummary Sample.posix
       (CustomReporter.this (Sample2.afterFailure true))
       (CustomReporter.make_summary
          (CustomReporter.this (Sample2.afterFailure true))
          1700000000000 1700000001250 (Some RunFailed)))
  /\ occurs_in ("### ❌ pays" ++ nl
                ++ "- **File**: /work/tests/login.spec.ts:7" ++ nl
                ++ "- **Error**: Timeout 3000ms exceeded" ++ nl)
       (CustomReporter.generateMarkdownSummary Sample.posix
          (CustomReporter.this (Sample2.afterFailure true))
          (CustomReporter.make_summary
             (CustomReporter.this (Sample2.afterFailure true))
             1700000000000 1700000001250 (Some RunFailed))).
Proof.
  apply (failed_outcome_is_listed Sample.posix
           (CustomReporter.this (Sample2.afterFailure true))
           1700000000000 1700000001250 (Some RunFailed)
           (CustomReporter.testResult (Sample.testCase "pays") Sample2.failure)).
  - left. reflexivity.
  - reflexivity.
Defined.

(** X16: the full-results table of summary.md is its heading followed by
    exactly one row per recorded outcome, in the order they were recorded,
    and the closing of the collapsible block ends the document. *)
Theorem details_table_lists_every_outcome {H : Type} (host : Host H)
        (self : CustomReporter.t) (summary : Summary.t) :
  exists head,
    CustomReporter.generateMarkdownSummary host self summary
    = head
      ++ "| Test | Status | Duration | Tags |" ++ nl
      ++ "|------|--------|----------|------|" ++ nl
      ++ concat_all (map CustomReporter.details_row (CustomReporter.results self))
      ++ nl ++ "</details>" ++ nl.
Proof.
  unfold CustomReporter.generateMarkdownSummary. cbv zeta.
  rewrite append_each_concat.
  match goal with
  | |- context [?pre ++ "| Test | Status | Duration | Tags |" ++ nl] =>
      exists pre
  end.
  rewrite !append_assoc. reflexivity.
Qed.

(** X17: the two glyph tables.  Every status has a glyph of its own on the
    console; in summary.md the glyph is the question mark for interrupted
    outcomes and for no other, and for every other status it is the glyph
    of the console. *)
Theorem status_glyphs (status : TestStatus) :
  CustomReporter.statusIcon CustomReporter.console_icons status
    <> CustomReporter.unknown_icon
  /\ (CustomReporter.statusIcon CustomReporter.markdown_icons status
        = CustomReporter.unknown_icon
      <-> status = Interrupted)
  /\ (status <> Interrupted ->
      CustomReporter.statusIcon CustomReporter.markdown_icons status
      = CustomReporter.statusIcon CustomReporter.console_icons status).
Proof.
  destruct status; repeat split; try discriminate;
    try (intros Hneq; reflexivity || (exfalso; apply Hneq; reflexivity));
    try (intros Heq; vm_compute in Heq; discriminate Heq);
    try reflexivity.
Qed.

(** ** A whole run *)
Section WholeRun.
Context {H : Type}.
Variable host : Host H.

Lemma onBegin_run (cfg : FullConfig) (allTests : list TestCase.t)
      (s : CustomReporter.State H) :
  CustomReporter.onBegin host cfg allTests s
  = (Normal tt,
     {| CustomReporter.this :=
          {| CustomReporter.results := CustomReporter.results (CustomReporter.this s);
             CustomReporter.startTime :=
               Some (fst (Date_now host (CustomReporter.machine s)));
             CustomReporter.config := Some cfg |};
        CustomReporter.machine := snd (Date_now host (CustomReporter.machine s));
        CustomReporter.console :=
          (CustomReporter.console s
             ++ [Log ("Starting test run with "
                      ++ JsNumber.string_of_nat (List.length allTests) ++ " tests")])%list |}).
Proof.
  unfold CustomReporter.onBegin, bind, CustomReporter.get_this,
    CustomReporter.set_this, CustomReporter.new_Date, CustomReporter.console_log.
  cbn [CustomReporter.this CustomReporter.machine CustomReporter.console].
  destruct (Date_now host (CustomReporter.machine s)) as [now h]. reflexivity.
Qed.

(** Once [onBegin] has set the two fields, [onEnd] can only fail on the
    file system. *)
Lemma onEnd_after_onBegin (status : option RunStatus) (s : CustomReporter.State H)
      (start : Z) (cfg : FullConfig) :
  CustomReporter.startTime (CustomReporter.this s) = Some start ->
  CustomReporter.config (CustomReporter.this s) = Some cfg ->
  fst (CustomReporter.onEnd host status s) = Normal tt
  \/ exists e, fst (CustomReporter.onEnd host status s) = Abrupt (Rejected e).
Proof.
  intros Hstart Hcfg.
  unfold CustomReporter.onEnd, bind, CustomReporter.new_Date,
    CustomReporter.get_this, CustomReporter.defined, CustomReporter.await_fs,
    ret, throw.
  destruct (Date_now host (CustomReporter.machine s)) as [endTime h1].
  cbn [CustomReporter.this CustomReporter.machine CustomReporter.console].
  rewrite Hstart, Hcfg.
  cbn [CustomReporter.this CustomReporter.machine CustomReporter.console].
  destruct (fs_mkdir host _ h1) as [[[]|e] h2]; [|right; eexists; reflexivity].
  cbn [CustomReporter.this CustomReporter.machine CustomReporter.console].
  destruct (fs_writeFile host _ (JsonDocument _) h2) as [[[]|e] h3];
    [|right; eexists; reflexivity].
  cbn [CustomReporter.this CustomReporter.machine CustomReporter.console].
  destruct (fs_writeFile host _ (Text _) h3) as [[[]|e] h4];
    [|right; eexists; reflexivity].
  cbn [CustomReporter.this CustomReporter.machine CustomReporter.console].
  rewrite (console_summary_run status s start endTime).
  cbn [CustomReporter.this CustomReporter.machine CustomReporter.console].
  left. destruct (0 <? _)%nat; [|reflexivity].
  match goal with
  | |- context [CustomReporter.console_failures ?self ?t] =>
      destruct (only_logs_failures self t) as [rest Hrest]; rewrite Hrest
  end.
  reflexivity.
Qed.

(** X18: a whole run ([onBegin], then [onTestEnd] for every attempt, then
    [onEnd]) on any host and from any state of the reporter: it can only
    fail with a rejection of the file system, never with a TypeError; and
    the recorded results at the end are those the reporter had before,
    which [onBegin] does not clear, followed by one record per attempt. *)
Theorem run_records_every_attempt (cfg : FullConfig) (allTests : list TestCase.t)
        (ends : list (TestCase.t * TestResult.t)) (status : option RunStatus)
        (s : CustomReporter.State H) :
  let run :=
    (CustomReporter.onBegin host cfg allTests ;;
     CustomReporter.forEach ends
       (fun call => CustomReporter.onTestEnd (fst call) (snd call)) ;;
     CustomReporter.onEnd host status) s in
  (fst run = Normal tt \/ exists e, fst run = Abrupt (Rejected e))
  /\ CustomReporter.results (CustomReporter.this (snd run))
     = (CustomReporter.results (CustomReporter.this s)
          ++ map (fun call => CustomReporter.testResult (fst call) (snd call)) ends)%list.
Proof.
  intros run.
  destruct (forEach_onTestEnd_run ends
              (snd (CustomReporter.onBegin host cfg allTests s)))
    as [lines Hlines].
  assert (Hrun : exists s2,
             run = CustomReporter.onEnd host status s2
             /\ CustomReporter.results (CustomReporter.this s2)
                = (CustomReporter.results (CustomReporter.this s)
                     ++ map (fun call => CustomReporter.testResult (fst call) (snd call))
                            ends)%list
             /\ CustomReporter.startTime (CustomReporter.this s2)
                = Some (fst (Date_now host (CustomReporter.machine s)))
             /\ CustomReporter.config (CustomReporter.this s2) = Some cfg).
  { subst run. unfold bind. rewrite onBegin_run in Hlines |- *.
    cbn [snd] in Hlines. rewrite Hlines.
    eexists. split; [reflexivity|]. repeat split. }
  destruct Hrun as (s2 & -> & Hresults & Hstart & Hcfg).
  split.
  - exact (onEnd_after_onBegin status s2 _ cfg Hstart Hcfg).
  - destruct (onEnd_frame host status s2) as [Hthis _].
    rewrite Hthis. exact Hresults.
Qed.

End WholeRun.

(** * Properties of setupAllureEnvironment *)




(** * Properties of the API helpers *)

(** ** Merging headers *)

Lemma lookup_set_property (k k' v : string) (obj : StringMap) :
  lookup k (set_property k' v obj)
  = if String.eqb k' k then Some v else lookup k obj.
Proof.
  induction obj as [|[k0 v0] obj IH]; cbn [set_property lookup].
  - destruct (String.eqb k' k); reflexivity.
  - destruct (String.eqb k0 k') eqn:H0; cbn [lookup].
    + apply String.eqb_eq in H0 as ->. destruct (String.eqb k' k); reflexivity.
    + rewrite IH. destruct (String.eqb k0 k) eqn:H1; [|reflexivity].
      apply String.eqb_eq in H1. subst k0.
      rewrite String.eqb_sym in H0. rewrite H0. reflexivity.
Qed.

Lemma lookup_app (k : string) (a b : StringMap) :
  lookup k (a ++ b)
  = match lookup k a with Some v => Some v | None => lookup k b end.
Proof.
  induction a as [|[k0 v0] a IH]; cbn [app lookup]; [reflexivity|].
  destruct (String.eqb k0 k); [reflexivity | exact IH].
Qed.

Lemma lookup_absent (k : string) (obj : StringMap) :
  ~ In k (map fst obj) -> lookup k obj = None.
Proof.
  induction obj as [|[k0 v0] obj IH]; intros Hk; cbn [lookup]; [reflexivity|].
  destruct (String.eqb k0 k) eqn:H0.
  - apply String.eqb_eq in H0. exfalso. apply Hk. left. exact H0.
  - apply IH. intros Hin. apply Hk. right. exact Hin.
Qed.

(** A later entry of the spread object wins over an earlier one and over
    the target. *)
Lemma lookup_spread (k : string) (source : StringMap) : forall target,
  lookup k (spread target source)
  = match lookup k (rev source) with
    | Some v => Some v
    | None => lookup k target
    end.
Proof.
  unfold spread.
  induction source as [|[k0 v0] source IH]; intros target; cbn [fold_left rev];
    [reflexivity|].
  rewrite IH, lookup_app, lookup_set_property. cbn [fst snd lookup].
  destruct (lookup k (rev source)); [reflexivity|].
  destruct (String.eqb k0 k); reflexivity.
Qed.

Lemma lookup_rev (k : string) (obj : StringMap) :
  NoDup (map fst obj) -> lookup k (rev obj) = lookup k obj.
Proof.
  induction obj as [|[k0 v0] obj IH]; intros Hkeys; [reflexivity|].
  cbn [map fst] in Hkeys. apply NoDup_cons_iff in Hkeys as [Hfresh Hkeys].
  cbn [rev lookup]. rewrite lookup_app, (IH Hkeys). cbn [lookup].
  destruct (String.eqb k0 k) eqn:H0.
  - apply String.eqb_eq in H0 as ->. rewrite (lookup_absent _ _ Hfresh). reflexivity.
  - destruct (lookup k obj); reflexivity.
Qed.

Lemma set_property_keys (k v : string) (obj : StringMap) :
  map fst (set_property k v obj)
  = if existsb (String.eqb k) (map fst obj) then map fst obj
    else (map fst obj ++ [k])%list.
Proof.
  induction obj as [|[k0 v0] obj IH]; cbn [set_property map fst existsb app];
    [reflexivity|].
  destruct (String.eqb k0 k) eqn:H0.
  - rewrite String.eqb_sym, H0. reflexivity.
  - rewrite String.eqb_sym, H0. cbn [orb map fst]. rewrite IH.
    destruct (existsb _ _); reflexivity.
Qed.

Lemma set_property_NoDup (k v : string) (obj : StringMap) :
  NoDup (map fst obj) -> NoDup (map fst (set_property k v obj)).
Proof.
  intros Hkeys. rewrite set_property_keys.
  destruct (existsb (String.eqb k) (map fst obj)) eqn:Hex; [exact Hkeys|].
  apply NoDup_app; [exact Hkeys | repeat constructor; intros [] |].
  intros x Hx [Hk|[]]. subst x.
  assert (Htrue : existsb (String.eqb k) (map fst obj) = true)
    by (apply existsb_exists; exists k; split; [exact Hx | apply String.eqb_refl]).
  congruence.
Qed.

Lemma spread_NoDup (source : StringMap) : forall target,
  NoDup (map fst target) -> NoDup (map fst (spread target source)).
Proof.
  unfold spread. induction source as [|[k0 v0] source IH]; intros target Hkeys;
    cbn [fold_left]; [exact Hkeys|].
  apply IH, set_property_NoDup, Hkeys.
Qed.

(** X21: the headers [mergeHeaders] builds hold, for every name, the value
    given for the call when there is one and the default otherwise; no
    name occurs twice.  Without headers for the call they are the
    defaults. *)
Theorem mergeHeaders_lookup (defaultHeaders headers : StringMap) (k : string) :
  NoDup (map fst defaultHeaders) ->
  NoDup (map fst headers) ->
  lookup k (APIHelpers.mergeHeaders defaultHeaders (Some headers))
  = match lookup k headers with
    | Some v => Some v
    | None => lookup k defaultHeaders
    end
  /\ lookup k (APIHelpers.mergeHeaders defaultHeaders None) = lookup k defaultHeaders
  /\ NoDup (map fst (APIHelpers.mergeHeaders defaultHeaders (Some headers))).
Proof.
  intros Hd Hh. unfold APIHelpers.mergeHeaders. repeat split.
  - rewrite !lookup_spread, (lookup_rev _ _ Hh), (lookup_rev _ _ Hd).
    cbn [lookup]. destruct (lookup k headers); [reflexivity|].
    destruct (lookup k defaultHeaders); reflexivity.
  - rewrite !lookup_spread, (lookup_rev _ _ Hd). cbn [rev lookup].
    destruct (lookup k defaultHeaders); reflexivity.
  - apply spread_NoDup, spread_NoDup. constructor.
Qed.

(** A call that sets its own Accept header and adds one. *)
Lemma mergeHeaders_lookup_witness :
  lookup "Accept"
    (APIHelpers.mergeHeaders APIHelpers.jsonHeaders
       (Some [("Accept", "text/html"); ("X-Request-Id", "7")]))
  = Some "text/html"
  /\ lookup "Accept" (APIHelpers.mergeHeaders APIHelpers.jsonHeaders None)
     = Some "application/json"
  /\ NoDup (map fst (APIHelpers.mergeHeaders APIHelpers.jsonHeaders
                       (Some [("Accept", "text/html"); ("X-Request-Id", "7")]))).
Proof.
  apply (mergeHeaders_lookup APIHelpers.jsonHeaders
           [("Accept", "text/html"); ("X-Request-Id", "7")] "Accept").
  - repeat (constructor; [cbn; intuition discriminate|]). constructor.
  - repeat (constructor; [cbn; intuition discriminate|]). constructor.
Defined.

(** ** Reading a response *)

(** X22: [getResponseData] fulfils only for a response whose status is
    exactly 200, with the parsed body; for any other status (201 and 204
    too) it rejects without parsing the body, with an error that names both
    statuses and quotes the response text. *)
Theorem getResponseData_only_for_200 {E J : Type}
        (response : APIHelpers.APIResponse (E:=E) (J:=J)) :
  (forall data,
      APIHelpers.getResponseData response = Normal data
      <-> APIHelpers.status response = 200%nat
          /\ APIHelpers.json response = Normal data)
  /\ (forall body,
        APIHelpers.status response <> 200%nat ->
        APIHelpers.text response = Normal body ->
        APIHelpers.getResponseData response
        = Abrupt (NewError ("Expected status 200, but got "
                            ++ JsNumber.string_of_nat (APIHelpers.status response)
                            ++ ". Response: " ++ body))).
Proof.
  unfold APIHelpers.getResponseData, APIHelpers.verifyResponse,
    APIHelpers.unexpected_status.
  split.
  - intros data. destruct (Nat.eqb_spec (APIHelpers.status response) 200) as [Heq|Hne];
      cbn [negb].
    + split.
      * destruct (APIHelpers.json response); intros Hd; [|discriminate Hd].
        injection Hd as <-. split; [exact Heq | reflexivity].
      * intros [_ ->]. reflexivity.
    + split.
      * destruct (APIHelpers.text response); intros Hd; discriminate Hd.
      * intros [Heq _]. contradiction.
  - intros body Hne Hbody.
    destruct (Nat.eqb_spec (APIHelpers.status response) 200) as [Heq|_];
      [contradiction|].
    cbn [negb]. rewrite Hbody. reflexivity.
Qed.

(** ** Cookies *)

Lemma split_on_first (sep : ascii) (s : string) :
  exists others, split_on sep s = before sep s :: others.
Proof.
  induction s as [|c s [others IH]]; cbn [split_on before].
  - exists []. reflexivity.
  - destruct (Ascii.eqb c sep).
    + eexists. reflexivity.
    + rewrite IH. eexists. reflexivity.
Qed.

Lemma hd_split_on (sep : ascii) (s : string) :
  hd "" (split_on sep s) = before sep s.
Proof.
  destruct (split_on_first sep s) as [others ->]. reflexivity.
Qed.

Lemma before_app (sep : ascii) (a b : string) :
  lacks sep a = true -> before sep (a ++ b) = a ++ before sep b.
Proof.
  induction a as [|c a IH]; cbn [lacks append before]; intros Ha; [reflexivity|].
  apply andb_true_iff in Ha as [Hc Ha]. apply negb_true_iff in Hc.
  rewrite Hc, (IH Ha). reflexivity.
Qed.

Lemma split_on_app (sep : ascii) (a b : string) :
  lacks sep a = true ->
  split_on sep (a ++ String sep b) = a :: split_on sep b.
Proof.
  induction a as [|c a IH]; cbn [lacks append split_on]; intros Ha.
  - rewrite Ascii.eqb_refl. reflexivity.
  - apply andb_true_iff in Ha as [Hc Ha]. apply negb_true_iff in Hc.
    rewrite Hc, (IH Ha). reflexivity.
Qed.

Lemma split_on_whole (sep : ascii) (s : string) :
  lacks sep s = true -> split_on sep s = [s].
Proof.
  induction s as [|c s IH]; cbn [lacks split_on]; intros Hs; [reflexivity|].
  apply andb_true_iff in Hs as [Hc Hs]. apply negb_true_iff in Hc.
  rewrite Hc, (IH Hs). reflexivity.
Qed.

Lemma before_ends_value (rest : string) :
  ends_value rest = true -> before "=" (before ";" rest) = "".
Proof.
  destruct rest as [|c rest]; [reflexivity|]. cbn [ends_value before].
  intros Hc. destruct (Ascii.eqb c ";") eqn:Hsemi; [reflexivity|].
  cbn [orb] in Hc. cbn [before]. rewrite Hc. reflexivity.
Qed.

Lemma before_other (sep c : ascii) (s : string) :
  Ascii.eqb c sep = false -> before sep (String c s) = String c (before sep s).
Proof.
  intros Hc. cbn [before]. rewrite Hc. reflexivity.
Qed.

(** One well-formed cookie. *)
Lemma add_cookie_parses (name value rest : string) (cookies : StringMap) :
  lacks ";" name = true -> lacks "=" name = true ->
  lacks ";" value = true -> lacks "=" value = true ->
  ends_value rest = true ->
  APIHelpers.add_cookie (name ++ "=" ++ value ++ rest) cookies
  = Normal (assign (trim name) (trim value) cookies).
Proof.
  intros Hn1 Hn2 Hv1 Hv2 Hrest. unfold APIHelpers.add_cookie. cbv zeta.
  rewrite hd_split_on, (before_app _ _ _ Hn1).
  change ("=" ++ value ++ rest) with (String "=" (value ++ rest)).
  rewrite (before_other ";" "=" _ eq_refl).
  rewrite (before_app _ _ _ Hv1), (split_on_app _ _ _ Hn2).
  cbn [hd APIHelpers.element nth_error].
  destruct (split_on_first "=" (value ++ before ";" rest)) as [others ->].
  cbn [nth_error]. rewrite (before_app _ _ _ Hv2), (before_ends_value _ Hrest).
  rewrite append_empty_r. reflexivity.
Qed.

(** X23: a Set-Cookie header [name=value] followed by nothing, by
    attributes ([; Path=/ ...]) or by a second [=] yields the one cookie
    that maps the trimmed name to the trimmed value: the attributes are
    dropped and a value is cut at its first [=].  A cookie named
    [__proto__] is not stored. *)
Theorem extractCookies_reads_name_and_value (name value rest : string) :
  lacks ";" name = true -> lacks "=" name = true ->
  lacks ";" value = true -> lacks "=" value = true ->
  ends_value rest = true ->
  APIHelpers.extractCookies (Some (APIHelpers.Single (name ++ "=" ++ value ++ rest)))
  = Normal (if String.eqb (trim name) "__proto__" then []
            else [(trim name, trim value)]).
Proof.
  intros Hn1 Hn2 Hv1 Hv2 Hrest.
  assert (Hrun : APIHelpers.extractCookies
                   (Some (APIHelpers.Single (name ++ "=" ++ value ++ rest)))
                 = APIHelpers.add_cookies [name ++ "=" ++ value ++ rest] []).
  { destruct name; reflexivity. }
  rewrite Hrun. cbn [APIHelpers.add_cookies].
  rewrite (add_cookie_parses _ _ _ _ Hn1 Hn2 Hv1 Hv2 Hrest).
  unfold assign. destruct (String.eqb (trim name) "__proto__"); reflexivity.
Qed.

(** A session cookie with attributes, and a value that holds [=] signs. *)
Lemma extractCookies_reads_name_and_value_witness :
  APIHelpers.extractCookies
    (Some (APIHelpers.Single (" session" ++ "=" ++ "abc123 " ++ "; Path=/; HttpOnly")))
  = Normal [("session", "abc123")].
Proof.
  apply (extractCookies_reads_name_and_value " session" "abc123 " "; Path=/; HttpOnly");
    reflexivity.
Defined.

Lemma add_cookie_without_equals (cookie : string) (cookies : StringMap) :
  lacks "=" (before ";" cookie) = true ->
  APIHelpers.add_cookie cookie cookies = Abrupt APIHelpers.TrimOfUndefined.
Proof.
  intros Hlacks. unfold APIHelpers.add_cookie. cbv zeta.
  rewrite hd_split_on, (split_on_whole _ _ Hlacks). reflexivity.
Qed.

(** X24: a Set-Cookie value with no [=] before its first [;] (a bare
    [flag; Secure], or an empty entry of an array of headers) makes
    [extractCookies] throw: the value is [undefined] and [trim] is read
    from it.  The cookies of the other headers are lost with it. *)
Theorem extractCookies_throws_without_equals (cookie : string)
        (headers : list string) :
  lacks "=" (before ";" cookie) = true ->
  (In cookie headers ->
   APIHelpers.extractCookies (Some (APIHelpers.Multiple headers))
   = Abrupt APIHelpers.TrimOfUndefined)
  /\ (cookie <> "" ->
      APIHelpers.extractCookies (Some (APIHelpers.Single cookie))
      = Abrupt APIHelpers.TrimOfUndefined).
Proof.
  intros Hlacks. split.
  - cbn [APIHelpers.extractCookies]. generalize (@nil (string * string)).
    induction headers as [|header headers IH]; intros cookies Hin; [contradiction|].
    cbn [APIHelpers.add_cookies]. destruct Hin as [->|Hin].
    + rewrite (add_cookie_without_equals _ _ Hlacks). reflexivity.
    + destruct (APIHelpers.add_cookie header cookies) as [cookies'|[]];
        [apply IH, Hin | reflexivity].
  - intros Hne. destruct cookie as [|c cookie]; [contradiction|].
    cbn [APIHelpers.extractCookies APIHelpers.add_cookies].
    rewrite (add_cookie_without_equals _ _ Hlacks). reflexivity.
Qed.

Lemma extractCookies_throws_without_equals_witness :
  (In "flag; Secure" ["session=abc123"; "flag; Secure"] ->
   APIHelpers.extractCookies
     (Some (APIHelpers.Multiple ["session=abc123"; "flag; Secure"]))
   = Abrupt APIHelpers.TrimOfUndefined)
  /\ ("flag; Secure" <> "" ->
      APIHelpers.extractCookies (Some (APIHelpers.Single "flag; Secure"))
      = Abrupt APIHelpers.TrimOfUndefined).
Proof.
  apply (extractCookies_throws_without_equals
           "flag; Secure" ["session=abc123"; "flag; Secure"]).
  reflexivity.
Defined.

Lemma add_cookies_app (first second : list string) : forall cookies,
  APIHelpers.add_cookies (first ++ second) cookies
  = match APIHelpers.add_cookies first cookies with
    | Normal cookies' => APIHelpers.add_cookies second cookies'
    | Abrupt e => Abrupt e
    end.
Proof.
  induction first as [|cookie first IH]; intros cookies;
    cbn [app APIHelpers.add_cookies]; [reflexivity|].
  destruct (APIHelpers.add_cookie cookie cookies); [apply IH | reflexivity].
Qed.

(** X25: of several Set-Cookie headers, a later cookie replaces an earlier
    one of the same name and leaves the cookies of other names as they
    are. *)
Theorem extractCookies_last_cookie_wins (headers : list string)
        (cookies : StringMap) (name value rest : string) :
  APIHelpers.extractCookies (Some (APIHelpers.Multiple headers)) = Normal cookies ->
  lacks ";" name = true -> lacks "=" name = true ->
  lacks ";" value = true -> lacks "=" value = true ->
  ends_value rest = true ->
  trim name <> "__proto__" ->
  exists cookies',
    APIHelpers.extractCookies
      (Some (APIHelpers.Multiple (headers ++ [name ++ "=" ++ value ++ rest])))
    = Normal cookies'
    /\ lookup (trim name) cookies' = Some (trim value)
    /\ forall k, k <> trim name -> lookup k cookies' = lookup k cookies.
Proof.
  intros Hrun Hn1 Hn2 Hv1 Hv2 Hrest Hproto.
  cbn [APIHelpers.extractCookies] in Hrun |- *.
  rewrite add_cookies_app, Hrun. cbn [APIHelpers.add_cookies].
  rewrite (add_cookie_parses _ _ _ _ Hn1 Hn2 Hv1 Hv2 Hrest).
  unfold assign. apply String.eqb_neq in Hproto. rewrite Hproto.
  eexists. split; [reflexivity|]. split.
  - rewrite lookup_set_property, String.eqb_refl. reflexivity.
  - intros k Hk. rewrite lookup_set_property.
    assert (Hneq : String.eqb (trim name) k = false)
      by (apply String.eqb_neq; congruence).
    rewrite Hneq. reflexivity.
Qed.

Lemma extractCookies_last_cookie_wins_witness :
  exists cookies',
    APIHelpers.extractCookies
      (Some (APIHelpers.Multiple
               (["session=abc123; Path=/"; "theme=dark"]
                  ++ ["session" ++ "=" ++ "zzz" ++ "; Path=/"])))
    = Normal cookies'
    /\ lookup (trim "session") cookies' = Some (trim "zzz")
    /\ forall k, k <> trim "session" ->
                 lookup k cookies' = lookup k [("session", "abc123"); ("theme", "dark")].
Proof.
  apply (extractCookies_last_cookie_wins
           ["session=abc123; Path=/"; "theme=dark"]
           [("session", "abc123"); ("theme", "dark")]
           "session" "zzz" "; Path=/");
    try reflexivity.
  discriminate.
Defined.

(** * Properties of parsePrice *)

Lemma keep_price_chars_app (a b : string) :
  TestHelpers.keep_price_chars (a ++ b)
  = TestHelpers.keep_price_chars a ++ TestHelpers.keep_price_chars b.
Proof.
  induction a as [|c a IH]; cbn [append TestHelpers.keep_price_chars];
    [reflexivity|].
  destruct (TestHelpers.is_price_char c); cbn [append]; rewrite IH; reflexivity.
Qed.

Lemma keep_price_chars_none (junk : string) :
  none_is TestHelpers.is_price_char junk = true ->
  TestHelpers.keep_price_chars junk = "".
Proof.
  induction junk as [|c junk IH]; cbn [none_is TestHelpers.keep_price_chars];
    intros Hjunk; [reflexivity|].
  apply andb_true_iff in Hjunk as [Hc Hjunk]. apply negb_true_iff in Hc.
  rewrite Hc. exact (IH Hjunk).
Qed.

Lemma keep_price_chars_all (s : string) :
  all_are TestHelpers.is_price_char s = true ->
  TestHelpers.keep_price_chars s = s.
Proof.
  induction s as [|c s IH]; cbn [all_are TestHelpers.keep_price_chars];
    intros Hs; [reflexivity|].
  apply andb_true_iff in Hs as [Hc Hs]. rewrite Hc, (IH Hs). reflexivity.
Qed.

(** X26: [parsePrice] reads only the digits, points and hyphens of its
    text: characters outside [[0-9.-]] (currency signs, letters, spaces,
    commas) may be put in or taken out anywhere without changing the
    result.  So a decimal comma is not a decimal point ("1,5" reads like
    "15") and an exponent is not an exponent ("1e3" reads like "13"). *)
Theorem parsePrice_ignores_other_characters (before_ junk after_ : string) :
  none_is TestHelpers.is_price_char junk = true ->
  TestHelpers.parsePrice (before_ ++ junk ++ after_)
  = TestHelpers.parsePrice (before_ ++ after_).
Proof.
  intros Hjunk. unfold TestHelpers.parsePrice.
  rewrite !keep_price_chars_app, (keep_price_chars_none _ Hjunk). reflexivity.
Qed.

Lemma parsePrice_ignores_other_characters_witness :
  TestHelpers.parsePrice ("1" ++ "," ++ "5") = TestHelpers.parsePrice ("1" ++ "5").
Proof.
  apply (parsePrice_ignores_other_characters "1" "," "5"). reflexivity.
Defined.

(** Price characters are the codes 45 to 57 without the slash. *)
Lemma price_char_code (c : ascii) :
  TestHelpers.is_price_char c = true ->
  (45 <= nat_of_ascii c <= 57)%nat.
Proof.
  unfold TestHelpers.is_price_char, is_digit. cbv zeta. intros Hc.
  apply orb_true_iff in Hc as [Hc|Hc]; [apply orb_true_iff in Hc as [Hc|Hc]|].
  - apply andb_true_iff in Hc as [Hlo Hhi].
    apply Nat.leb_le in Hlo. apply Nat.leb_le in Hhi. lia.
  - apply Ascii.eqb_eq in Hc as ->. cbn. lia.
  - apply Ascii.eqb_eq in Hc as ->. cbn. lia.
Qed.

Lemma price_char_not_white (a b c : ascii) :
  TestHelpers.is_price_char a = true ->
  white1 a = false /\ white2 a b = false /\ white3 a b c = false.
Proof.
  intros Ha. apply price_char_code in Ha.
  unfold white1, white2, white3. cbv zeta.
  repeat split.
  - destruct (Nat.leb_spec 9 (nat_of_ascii a)), (Nat.leb_spec (nat_of_ascii a) 13),
      (Nat.eqb_spec (nat_of_ascii a) 32); cbn; try reflexivity; lia.
  - destruct (Nat.eqb_spec (nat_of_ascii a) 194); [lia | reflexivity].
  - destruct (Nat.eqb_spec (nat_of_ascii a) 225); [lia|].
    destruct (Nat.eqb_spec (nat_of_ascii a) 226); [lia|].
    destruct (Nat.eqb_spec (nat_of_ascii a) 227); [lia|].
    destruct (Nat.eqb_spec (nat_of_ascii a) 239); [lia|].
    reflexivity.
Qed.

Lemma trimStart_price (c : ascii) (rest : string) :
  TestHelpers.is_price_char c = true ->
  trimStart (String c rest) = String c rest.
Proof.
  intros Hc. cbn [trimStart].
  destruct (price_char_not_white c "000" "000" Hc) as (H1 & _ & _). rewrite H1.
  destruct rest as [|b rest2]; [reflexivity|].
  destruct (price_char_not_white c b "000" Hc) as (_ & H2 & _). rewrite H2.
  destruct rest2 as [|d rest3]; [reflexivity|].
  destruct (price_char_not_white c b d Hc) as (_ & _ & H3). rewrite H3.
  reflexivity.
Qed.

(** A text that starts with a price character does not start with
    Infinity. *)
Lemma no_Infinity (s : string) :
  all_are TestHelpers.is_price_char s = true ->
  String.prefix "Infinity" s = false.
Proof.
  destruct s as [|c s]; [reflexivity|]. cbn [all_are]. intros Hs.
  apply andb_true_iff in Hs as [Hc _]. cbn [String.prefix].
  destruct (ascii_dec "I" c) as [<-|Hne]; [discriminate Hc | reflexivity].
Qed.

Lemma digits_of_none (s : string) :
  none_is is_digit s = true -> digits_of s = ("", s).
Proof.
  destruct s as [|c s]; [reflexivity|]. cbn [none_is digits_of]. intros Hs.
  apply andb_true_iff in Hs as [Hc _]. apply negb_true_iff in Hc.
  rewrite Hc. reflexivity.
Qed.

Lemma scan_unsigned_none (s : string) :
  none_is is_digit s = true -> scan_unsigned s = None.
Proof.
  intros Hs. unfold scan_unsigned. rewrite (digits_of_none _ Hs).
  destruct s as [|c s]; [reflexivity|].
  cbn [none_is] in Hs. apply andb_true_iff in Hs as [_ Hs].
  rewrite (digits_of_none _ Hs). destruct (Ascii.eqb c "."); reflexivity.
Qed.

Lemma parseFloat_without_digit (s : string) :
  all_are TestHelpers.is_price_char s = true ->
  none_is is_digit s = true ->
  parseFloat s = nan.
Proof.
  intros Hprice Hdigits. unfold parseFloat.
  destruct s as [|c s]; [reflexivity|].
  pose proof Hprice as Hall. cbn [all_are] in Hprice.
  apply andb_true_iff in Hprice as [Hc Hs].
  rewrite (trimStart_price _ _ Hc).
  destruct (Ascii.eqb c "-") eqn:Hminus.
  - cbn [none_is] in Hdigits. apply andb_true_iff in Hdigits as [_ Hdigits].
    rewrite (no_Infinity _ Hs), (scan_unsigned_none _ Hdigits). reflexivity.
  - destruct (Ascii.eqb c "+") eqn:Hplus.
    + apply Ascii.eqb_eq in Hplus as ->. discriminate Hc.
    + rewrite (no_Infinity _ Hall), (scan_unsigned_none _ Hdigits). reflexivity.
Qed.

Lemma keep_price_chars_is_price (s : string) :
  all_are TestHelpers.is_price_char (TestHelpers.keep_price_chars s) = true.
Proof.
  induction s as [|c s IH]; cbn [TestHelpers.keep_price_chars]; [reflexivity|].
  destruct (TestHelpers.is_price_char c) eqn:Hc; [|exact IH].
  cbn [all_are]. rewrite Hc. exact IH.
Qed.

Lemma keep_price_chars_no_digit (s : string) :
  none_is is_digit s = true ->
  none_is is_digit (TestHelpers.keep_price_chars s) = true.
Proof.
  induction s as [|c s IH]; cbn [none_is TestHelpers.keep_price_chars];
    intros Hs; [reflexivity|].
  apply andb_true_iff in Hs as [Hc Hs].
  destruct (TestHelpers.is_price_char c); [|exact (IH Hs)].
  cbn [none_is]. rewrite Hc. exact (IH Hs).
Qed.

(** X27: a text without any digit (the empty text, "free", "-", "." or
    "Infinity") has the price NaN. *)
Theorem parsePrice_without_digit_is_NaN (priceString : string) :
  none_is is_digit priceString = true ->
  TestHelpers.parsePrice priceString = nan.
Proof.
  intros Hdigits. unfold TestHelpers.parsePrice.
  apply parseFloat_without_digit;
    [apply keep_price_chars_is_price | apply keep_price_chars_no_digit, Hdigits].
Qed.

Lemma parsePrice_without_digit_is_NaN_witness :
  TestHelpers.parsePrice "call us - or write." = nan.
Proof.
  apply (parsePrice_without_digit_is_NaN "call us - or write."). reflexivity.
Defined.

Lemma digit_is_price_char (c : ascii) :
  is_digit c = true -> TestHelpers.is_price_char c = true.
Proof.
  intros Hc. unfold TestHelpers.is_price_char. rewrite Hc. reflexivity.
Qed.

Lemma digits_are_price_chars (digits : string) :
  all_are is_digit digits = true ->
  all_are TestHelpers.is_price_char digits = true.
Proof.
  induction digits as [|c digits IH]; cbn [all_are]; intros Hd; [reflexivity|].
  apply andb_true_iff in Hd as [Hc Hd].
  rewrite (digit_is_price_char _ Hc), (IH Hd). reflexivity.
Qed.

Lemma all_are_app (p : ascii -> bool) (a b : string) :
  all_are p (a ++ b) = all_are p a && all_are p b.
Proof.
  induction a as [|c a IH]; cbn [append all_are]; [reflexivity|].
  rewrite IH, andb_assoc. reflexivity.
Qed.

Lemma digits_of_app (digits after : string) :
  all_are is_digit digits = true ->
  digits_of after = ("", after) ->
  digits_of (digits ++ after) = (digits, after).
Proof.
  intros Hd Hafter. induction digits as [|c digits IH]; cbn [append];
    [exact Hafter|].
  cbn [all_are] in Hd. apply andb_true_iff in Hd as [Hc Hd].
  cbn [digits_of]. rewrite Hc, (IH Hd). reflexivity.
Qed.

Lemma digits_of_other (c : ascii) (rest : string) :
  is_digit c = false -> digits_of (String c rest) = ("", String c rest).
Proof.
  intros Hc. cbn [digits_of]. rewrite Hc. reflexivity.
Qed.

(** On a text of price characters that does not start with a hyphen,
    [parseFloat] reads an unsigned literal. *)
Lemma parseFloat_unsigned (s : string) :
  all_are TestHelpers.is_price_char s = true ->
  match s with String c _ => Ascii.eqb c "-" | EmptyString => false end = false ->
  parseFloat s
  = match scan_unsigned s with
    | Some (int, frac, rest) =>
        number_of_decimal false (digits_value 0 (int ++ frac))
          (scan_exponent rest - Z.of_nat (String.length frac))
    | None => nan
    end.
Proof.
  intros Hprice Hminus. unfold parseFloat.
  destruct s as [|c s]; [reflexivity|].
  pose proof Hprice as Hall. cbn [all_are] in Hprice.
  apply andb_true_iff in Hprice as [Hc _].
  rewrite (trimStart_price _ _ Hc), Hminus.
  destruct (Ascii.eqb c "+") eqn:Hplus;
    [apply Ascii.eqb_eq in Hplus as ->; discriminate Hc|].
  rewrite (no_Infinity _ Hall). reflexivity.
Qed.

Lemma scan_unsigned_fraction (int frac after : string) :
  all_are is_digit int = true ->
  all_are is_digit frac = true ->
  digits_of after = ("", after) ->
  scan_unsigned (int ++ String "." (frac ++ after))
  = match int, frac with
    | EmptyString, EmptyString => None
    | _, _ => Some (int, frac, after)
    end.
Proof.
  intros Hint Hfrac Hafter. unfold scan_unsigned.
  rewrite (digits_of_app int _ Hint (digits_of_other "." _ eq_refl)).
  rewrite Ascii.eqb_refl, (digits_of_app frac _ Hfrac Hafter). reflexivity.
Qed.

Lemma scan_unsigned_integer (int : string) (c : ascii) (rest : string) :
  all_are is_digit int = true ->
  int <> "" ->
  is_digit c = false ->
  Ascii.eqb c "." = false ->
  scan_unsigned (int ++ String c rest) = Some (int, "", String c rest)
  /\ scan_unsigned int = Some (int, "", "").
Proof.
  intros Hint Hne Hc Hpoint. unfold scan_unsigned. split.
  - rewrite (digits_of_app int _ Hint (digits_of_other c _ Hc)), Hpoint.
    destruct int; [contradiction | reflexivity].
  - rewrite <- (append_empty_r int) at 1.
    rewrite (digits_of_app int "" Hint eq_refl).
    destruct int; [contradiction | reflexivity].
Qed.

(** X28: the price ends where the decimal literal ends.  After digits
    with a fraction, a second point or a hyphen and all that follows are
    ignored ("1.234.567" reads like "1.234", "9.99-" like "9.99"); after
    digits without a fraction, a hyphen and all that follows are ignored
    (the range "10-20" reads like "10"). *)
Theorem parsePrice_stops_at_end_of_literal (int frac rest : string) :
  all_are is_digit int = true ->
  all_are is_digit frac = true ->
  (forall c, c = "."%char \/ c = "-"%char ->
     TestHelpers.parsePrice (int ++ "." ++ frac ++ String c rest)
     = TestHelpers.parsePrice (int ++ "." ++ frac))
  /\ (int <> "" ->
      TestHelpers.parsePrice (int ++ String "-" rest) = TestHelpers.parsePrice int).
Proof.
  intros Hint Hfrac.
  pose proof (digits_are_price_chars _ Hint) as Hpint.
  pose proof (digits_are_price_chars _ Hfrac) as Hpfrac.
  assert (Hstart : forall tail,
             match int ++ tail with
             | String c _ => Ascii.eqb c "-"
             | EmptyString => false
             end
             = match int with
               | EmptyString =>
                   match tail with
                   | String c _ => Ascii.eqb c "-"
                   | EmptyString => false
                   end
               | String _ _ => false
               end).
  { intros tail. destruct int as [|d int]; [reflexivity|]. cbn [append].
    cbn [all_are] in Hint. apply andb_true_iff in Hint as [Hd _].
    destruct (Ascii.eqb d "-") eqn:Hm; [|reflexivity].
    apply Ascii.eqb_eq in Hm as ->. discriminate Hd. }
  split.
  - intros c Hc. unfold TestHelpers.parsePrice.
    assert (Hpc : TestHelpers.is_price_char c = true)
      by (destruct Hc as [-> | ->]; reflexivity).
    assert (Hdc : is_digit c = false) by (destruct Hc as [-> | ->]; reflexivity).
    assert (Hexp : forall k, scan_exponent (String c k) = 0)
      by (intros k; destruct Hc as [-> | ->]; reflexivity).
    change ("." ++ frac ++ String c rest) with (String "." (frac ++ String c rest)).
    change ("." ++ frac) with (String "." frac).
    rewrite !keep_price_chars_app. cbn [TestHelpers.keep_price_chars].
    change (TestHelpers.is_price_char ".") with true. cbv iota.
    rewrite !keep_price_chars_app. cbn [TestHelpers.keep_price_chars].
    rewrite Hpc, (keep_price_chars_all _ Hpint), (keep_price_chars_all _ Hpfrac).
    rewrite !parseFloat_unsigned.
    + rewrite <- (append_empty_r frac) at 2.
      rewrite (scan_unsigned_fraction int frac _ Hint Hfrac (digits_of_other c _ Hdc)).
      rewrite (scan_unsigned_fraction int frac "" Hint Hfrac eq_refl).
      destruct int, frac; try reflexivity; rewrite Hexp; reflexivity.
    + rewrite all_are_app, Hpint. cbn [all_are andb].
      change (TestHelpers.is_price_char ".") with true. exact Hpfrac.
    + rewrite Hstart. destruct int; reflexivity.
    + rewrite all_are_app, Hpint. cbn [all_are andb].
      change (TestHelpers.is_price_char ".") with true. cbv iota.
      rewrite all_are_app, Hpfrac. cbn [all_are andb]. rewrite Hpc.
      apply keep_price_chars_is_price.
    + rewrite Hstart. destruct int; reflexivity.
  - intros Hne. unfold TestHelpers.parsePrice.
    rewrite keep_price_chars_app. cbn [TestHelpers.keep_price_chars].
    change (TestHelpers.is_price_char "-") with true. cbv iota.
    rewrite (keep_price_chars_all _ Hpint).
    destruct (scan_unsigned_integer int "-" (TestHelpers.keep_price_chars rest)
                Hint Hne eq_refl eq_refl) as [Hlong Hshort].
    rewrite !parseFloat_unsigned.
    + rewrite Hlong, Hshort. reflexivity.
    + exact Hpint.
    + rewrite <- (append_empty_r int), Hstart.
      destruct int; [contradiction | reflexivity].
    + rewrite all_are_app, Hpint. cbn [all_are andb].
      change (TestHelpers.is_price_char "-") with true.
      apply keep_price_chars_is_price.
    + rewrite Hstart. destruct int; [contradiction | reflexivity].
Qed.

Lemma parsePrice_stops_at_end_of_literal_witness :
  (forall c, c = "."%char \/ c = "-"%char ->
     TestHelpers.parsePrice ("1" ++ "." ++ "234" ++ String c "567 EUR")
     = TestHelpers.parsePrice ("1" ++ "." ++ "234"))
  /\ ("1" <> "" ->
      TestHelpers.parsePrice ("1" ++ String "-" "567 EUR") = TestHelpers.parsePrice "1").
Proof.
  apply (parsePrice_stops_at_end_of_literal "1" "234" "567 EUR"); reflexivity.
Defined.

(** The prices of some texts. *)
Example parsePrice_samples :
  TestHelpers.parsePrice "$1,234.50" = 1234.5%float
  /\ TestHelpers.parsePrice "USD 99" = 99%float
  /\ TestHelpers.parsePrice "- $ 5" = (-5)%float
  /\ TestHelpers.parsePrice "10-20" = 10%float
  /\ TestHelpers.parsePrice "1,5 EUR" = 15%float
  /\ TestHelpers.parsePrice "free" = nan.
Proof. repeat split; vm_compute; reflexivity. Qed.
